(** * Fire risk analysis: the analysis-and-retrieval pipeline of [main.py]

    A shallow embedding of [src/main.py].  The Python program drives two
    remote services (an Earth Engine style raster backend and a Drive style
    storage backend) and a small map GUI.  The program itself is embedded
    function by function, under the names it has in the source; the
    operations of the two services that the program calls are modelled
    first, per pixel and in exact real arithmetic.

    Numbers: raster values are real numbers ([R]); coordinates and the
    map/pixel conversions are rational numbers ([Q]); pixel positions of the
    GUI are integers ([Z]).  The two map conversions are given a second
    time in binary64 floating point, as the interpreter computes them; the
    labels of the GUI are placed with these. *)

From Stdlib Require Import Reals Lra Lia QArith Qreals ZArith List String Ascii Machin.
From Stdlib Require Lqa Qround.
From Stdlib Require PrimFloat SpecFloat FloatOps.
From stdpp Require Import gmap strings pretty.
Import ListNotations.

#[local] Open Scope string_scope.
#[local] Open Scope list_scope.

(* ===================================================================== *)
(** * The raster backend, as the program uses it                          *)
(* ===================================================================== *)

(** A raster is a real value at every pixel; an image is a list of named
    bands.  Pixel masks and projections are not modelled: every band is
    defined on every pixel. *)
Definition Pixel : Type := (Z * Z)%type.
Definition Raster : Type := Pixel -> R.
Definition Band : Type := (string * Raster)%type.
Definition Image : Type := list Band.

(** [ee.Image(c)]: one band, called [constant], equal to [c] everywhere. *)
Definition ee_Image (c : R) : Image := [("constant", fun _ => c)].

(** [img.bandNames()], [list.size()], [number.gt(m)]. *)
Definition bandNames (img : Image) : list string := map fst img.
Definition size {A : Type} (l : list A) : nat := List.length l.
Definition gt (n m : nat) : bool := Nat.ltb m n.

(** [ee.Algorithms.If(condition, trueCase, falseCase)]. *)
Definition Algorithms_If {A : Type} (condition : bool) (trueCase falseCase : A) : A :=
  if condition then trueCase else falseCase.

(** [img.rename(name)] on a one-band image; the backend rejects a name count
    that differs from the band count, which the model renders by renaming
    the first band only. *)
Definition rename (img : Image) (name : string) : Image :=
  match img with
  | [] => []
  | (_, r) :: rest => (name, r) :: rest
  end.

(** [img.select(name)]: the bands of that name. *)
Definition select (img : Image) (name : string) : Image :=
  List.filter (fun b => String.eqb (fst b) name) img.

(** The raster of the first band called [name], if any. *)
Definition band (img : Image) (name : string) : option Raster :=
  match select img name with
  | [] => None
  | (_, r) :: _ => Some r
  end.

(** Apply a function to every value of every band. *)
Definition map_bands (f : R -> R) (img : Image) : Image :=
  map (fun b : Band => (fst b, fun p => f (snd b p))) img.

(** Band matching of the binary image operators: a one-band operand is used
    against every band of the other one; otherwise the bands are paired in
    order.  The result carries the names of the longer operand, the first
    one when the lengths agree. *)
Definition binop (f : R -> R -> R) (a b : Image) : Image :=
  match a, b with
  | [(_, ra)], _ :: _ :: _ =>
      map (fun y : Band => (fst y, fun p => f (ra p) (snd y p))) b
  | _, [(_, rb)] =>
      map (fun x : Band => (fst x, fun p => f (snd x p) (rb p))) a
  | _, _ =>
      map (fun xy : Band * Band =>
             (fst (fst xy), fun p => f (snd (fst xy) p) (snd (snd xy) p)))
          (combine a b)
  end.

Definition add : Image -> Image -> Image := binop Rplus.
Definition subtract : Image -> Image -> Image := binop Rminus.
Definition multiply : Image -> Image -> Image := binop Rmult.

(** [img.unitScale(low, high)]: the range [low, high] becomes [0, 1];
    values outside the range are not clamped. *)
Definition unitScale (img : Image) (low high : R) : Image :=
  map_bands (fun v => (v - low) / (high - low))%R img.

(** [img.clamp(low, high)]. *)
Definition clamp (img : Image) (low high : R) : Image :=
  map_bands (fun v => Rmin (Rmax v low) high) img.

(** [img.normalizedDifference([b1, b2])]: [(b1 - b2) / (b1 + b2)] in one band
    called [nd]; no band when one of the two is missing. *)
Definition normalizedDifference (img : Image) (b1 b2 : string) : Image :=
  match band img b1, band img b2 with
  | Some r1, Some r2 => [("nd", fun p => (r1 p - r2 p) / (r1 p + r2 p))%R]
  | _, _ => []
  end.

(** The expressions of [img.expression(text, map)], as far as the program
    uses them: variables bound to images, numbers, [-], [*], [/] and [cos]. *)
Inductive Expr : Type :=
| EVar (name : string)
| ENum (c : R)
| ESub (a b : Expr)
| EMul (a b : Expr)
| EDiv (a b : Expr)
| ECos (a : Expr).

Definition lift2 (f : R -> R -> R) (a b : option Raster) : option Raster :=
  match a, b with
  | Some ra, Some rb => Some (fun p => f (ra p) (rb p))
  | _, _ => None
  end.

(** A variable stands for the first band of the image it is bound to. *)
Fixpoint lookup_var (vars : list (string * Image)) (name : string) : option Raster :=
  match vars with
  | [] => None
  | (x, img) :: rest =>
      if String.eqb x name
      then match img with [] => None | (_, r) :: _ => Some r end
      else lookup_var rest name
  end.

Fixpoint eval_expr (vars : list (string * Image)) (e : Expr) : option Raster :=
  match e with
  | EVar x => lookup_var vars x
  | ENum c => Some (fun _ => c)
  | ESub a b => lift2 Rminus (eval_expr vars a) (eval_expr vars b)
  | EMul a b => lift2 Rmult (eval_expr vars a) (eval_expr vars b)
  | EDiv a b => lift2 Rdiv (eval_expr vars a) (eval_expr vars b)
  | ECos a => option_map (fun r p => cos (r p)) (eval_expr vars a)
  end.

(** [img.expression(e, vars)]: one band, named after the first band of
    [img]; no band when a variable cannot be resolved. *)
Definition expression (img : Image) (e : Expr) (vars : list (string * Image)) : Image :=
  match eval_expr vars e with
  | Some r => [(hd "constant" (bandNames img), r)]
  | None => []
  end.

(** The values of an image at one pixel, band by band. *)
Definition sample (img : Image) (p : Pixel) : list (string * R) :=
  map (fun b : Band => (fst b, snd b p)) img.

(* ===================================================================== *)
(** * Regions, image collections and reducers                            *)
(* ===================================================================== *)

(** Geometries are kept as the program builds them:
    [ee.Geometry.Point([lon, lat])], [g.buffer(distance)], [g.bounds()]. *)
Inductive Geometry : Type :=
| Geometry_Point (lon lat : Q)
| buffer (g : Geometry) (distance : Z)
| bounds (g : Geometry).

(** One image of a collection: where it lies, when it was taken
    ([system:time_start], in milliseconds), its numeric properties and its
    bands. *)
Record Scene : Type := {
  intersects : Geometry -> bool;
  time_start : Z;
  property : string -> option Q;
  bands : Image
}.

Definition Collection : Type := list Scene.

(** What the raster backend holds and computes on its own side: the
    catalogue of collections and of single images, the reading of a date
    text as a time stamp, clipping, and the terrain products (the bands
    [slope] and [aspect] of an elevation image). *)
Class EarthEngine : Type := {
  ImageCollection : string -> Collection;
  Image_asset : string -> Image;
  ee_Date : string -> Z;
  clip : Image -> Geometry -> Image;
  Algorithms_Terrain : Image -> Image
}.

(** [col.filterBounds(geometry)]. *)
Definition filterBounds (col : Collection) (geometry : Geometry) : Collection :=
  List.filter (fun s => intersects s geometry) col.

(** [col.filterDate(start, end)]: start inclusive, end exclusive. *)
Definition filterDate `{EarthEngine} (col : Collection) (start_ end_ : string) : Collection :=
  List.filter (fun s => (ee_Date start_ <=? time_start s)%Z && (time_start s <? ee_Date end_)%Z) col.

(** [ee.Filter.lt(name, value)] and [col.filter(f)]. *)
Definition Filter_lt (name : string) (value : Q) : Scene -> bool :=
  fun s => match property s name with
           | Some v => negb (Qle_bool value v)
           | None => false
           end.

Definition filter_ (col : Collection) (f : Scene -> bool) : Collection := List.filter f col.

(** [col.select(name)]: every image keeps the selected band only. *)
Definition select_col (col : Collection) (name : string) : Collection :=
  map (fun s => {| intersects := intersects s; time_start := time_start s;
                   property := property s; bands := select (bands s) name |}) col.

(** The values that the images of a collection have in one band at one
    pixel. *)
Definition values (col : Collection) (name : string) (p : Pixel) : list R :=
  flat_map (fun s => match band (bands s) name with
                     | Some r => [r p]
                     | None => []
                     end) col.

(** A collection reducer works band by band and pixel by pixel, over the
    band names of the first image.  An empty collection reduces to an image
    with no bands. *)
Definition reduce (f : list R -> R) (col : Collection) : Image :=
  match col with
  | [] => []
  | s0 :: _ => map (fun name => (name, fun p => f (values col name p))) (bandNames (bands s0))
  end.

Definition sum_values (l : list R) : R := fold_right Rplus 0%R l.
Definition mean_values (l : list R) : R := (sum_values l / INR (List.length l))%R.

Fixpoint insert_sorted (x : R) (l : list R) : list R :=
  match l with
  | [] => [x]
  | y :: t => if Rle_dec x y then x :: l else y :: insert_sorted x t
  end.

Definition sort_values (l : list R) : list R := fold_right insert_sorted [] l.

(** The middle value, or the mean of the two middle values. *)
Definition median_values (l : list R) : R :=
  let s := sort_values l in
  let n := List.length s in
  if Nat.even n
  then ((nth (n / 2 - 1) s 0 + nth (n / 2) s 0) / 2)%R
  else nth (n / 2) s 0%R.

Definition median : Collection -> Image := reduce median_values.
Definition mean : Collection -> Image := reduce mean_values.
Definition sum : Collection -> Image := reduce sum_values.

(* ===================================================================== *)
(** * [run_fire_risk_analysis]: the signals                               *)
(* ===================================================================== *)

(** Lines 27-28; [end] is a keyword here. *)
Definition start : string := "2023-07-01".
Definition end_ : string := "2023-08-31".

(** Lines 23-24. *)
Definition point (longitude latitude : Q) : Geometry := Geometry_Point longitude latitude.
Definition area (longitude latitude : Q) : Geometry := buffer (point longitude latitude) 30000.

(** Lines 31-42: Sentinel-2 NDVI. *)
Definition s2 `{EarthEngine} (area : Geometry) : Collection :=
  filter_ (filterDate (filterBounds (ImageCollection "COPERNICUS/S2_SR") area) start end_)
          (Filter_lt "CLOUDY_PIXEL_PERCENTAGE" 10).

Definition ndvi (s2_median : Image) : Image :=
  Algorithms_If (gt (size (bandNames s2_median)) 0)
    (rename (normalizedDifference s2_median "B8" "B4") "NDVI")
    (rename (ee_Image 0) "NDVI").

(** Lines 45-56: MODIS land surface temperature. *)
Definition lstCol `{EarthEngine} (area : Geometry) : Collection :=
  select_col (filterDate (filterBounds (ImageCollection "MODIS/006/MOD11A2") area) start end_)
             "LST_Day_1km".

Definition lst (lstImage : Image) : Image :=
  Algorithms_If (gt (size (bandNames lstImage)) 0)
    (rename (subtract (multiply lstImage (ee_Image 0.02)) (ee_Image 273.15)) "LST")
    (rename (ee_Image 25) "LST").

(** Lines 59-69: CHIRPS rainfall. *)
Definition chirpsCol `{EarthEngine} (area : Geometry) : Collection :=
  filterDate (filterBounds (ImageCollection "UCSB-CHG/CHIRPS/DAILY") area) "2023-06-01" end_.

Definition precip (precipImage : Image) : Image :=
  Algorithms_If (gt (size (bandNames precipImage)) 0)
    (rename precipImage "Precip")
    (rename (ee_Image 10) "Precip").

(** Lines 72-75: slope and aspect of the elevation model. *)
Definition dem `{EarthEngine} (area : Geometry) : Image := clip (Image_asset "USGS/SRTMGL1_003") area.
Definition terrain `{EarthEngine} (area : Geometry) : Image := Algorithms_Terrain (dem area).
Definition slope `{EarthEngine} (area : Geometry) : Image := rename (select (terrain area) "slope") "Slope".
Definition aspect `{EarthEngine} (area : Geometry) : Image := rename (select (terrain area) "aspect") "Aspect".

(* ===================================================================== *)
(** * [run_fire_risk_analysis]: normalisation and the risk index          *)
(* ===================================================================== *)

(** Lines 78-84. *)
Definition ndvi_norm (ndvi : Image) : Image := clamp (unitScale ndvi 0 1) 0 1.
Definition lst_norm (lst : Image) : Image := clamp (unitScale lst 20 45) 0 1.
Definition slope_norm (slope : Image) : Image := clamp (unitScale slope 0 60) 0 1.
Definition precip_norm (precip : Image) : Image := clamp (unitScale precip 0 150) 0 1.

(** The text ["cos((aspect - 180) * 3.1416 / 180)"] of line 82. *)
Definition aspect_south_expr : Expr :=
  ECos (EDiv (EMul (ESub (EVar "aspect") (ENum 180)) (ENum 3.1416)) (ENum 180)).

Definition aspect_south (aspect : Image) : Image :=
  rename (expression aspect aspect_south_expr [("aspect", aspect)]) "Aspect_Score".

(** Lines 87-92. *)
Definition fireRisk (lst_norm ndvi_norm slope_norm aspect_south precip_norm : Image) : Image :=
  rename
    (add (add (add (add (multiply lst_norm (ee_Image 0.3))
                        (multiply ndvi_norm (ee_Image (-0.3))))
                   (multiply slope_norm (ee_Image 0.15)))
              (multiply aspect_south (ee_Image 0.15)))
         (multiply precip_norm (ee_Image (-0.1))))
    "Fire_Risk".

(* ===================================================================== *)
(** * Effects: what a run does to the outside world                      *)
(* ===================================================================== *)

(** An export job as [ee.batch.Export.image.toDrive] receives it. *)
Record ExportTask : Type := {
  image : Image;
  description : string;
  folder : string;
  fileNamePrefix : string;
  region : Geometry;
  scale : Z;
  maxPixels : Z
}.

(** An item of the storage backend: [file['id']], [file['title']] and the
    bytes that [GetContentFile] fetches. *)
Record DriveFile : Type := {
  id : string;
  title : string;
  content : string
}.

(** The storage backend answers a listing query with a list of items. *)
Class GoogleDrive : Type := {
  GetList : string -> list DriveFile
}.

(** The Python runtime: the text of a float in an f-string, and
    [os.path.join], which depends on the platform. *)
Class Runtime : Type := {
  format_float : Q -> string;
  os_path_join : string -> string -> string
}.

(** The calls that leave the process, in the order they are made. *)
Inductive Event : Type :=
| Stdout (text : string)
| Initialize (project : string)
| Task_start (task : ExportTask)
| Time_sleep (seconds : Z)
| LocalWebserverAuth
| ListFile (q : string)
| Makedirs (path : string)
| GetContentFile (file : DriveFile) (path : string).

(** The local side: the calls made so far, the local directories and the
    local files with their contents. *)
Record World : Type := {
  trace : list Event;
  dirs : gset string;
  files : gmap string string
}.

(** A Python statement: it ends normally with a value or raises an
    exception with a message, and leaves a new world either way. *)
Inductive Outcome (A : Type) : Type :=
| Returned (a : A)
| Raised (message : string).
Arguments Returned {A} a.
Arguments Raised {A} message.

Definition Py (A : Type) : Type := World -> Outcome A * World.

Definition ret {A : Type} (a : A) : Py A := fun w => (Returned a, w).

Definition bind {A B : Type} (m : Py A) (k : A -> Py B) : Py B :=
  fun w => match m w with
           | (Returned a, w') => k a w'
           | (Raised e, w') => (Raised e, w')
           end.

Definition raise {A : Type} (message : string) : Py A := fun w => (Raised message, w).

Declare Scope py_scope.
Delimit Scope py_scope with py.
Notation "x <- m ;; k" := (bind m (fun x => k))
  (at level 100, m at next level, right associativity) : py_scope.
Notation "m ;; k" := (bind m (fun _ => k))
  (at level 100, right associativity) : py_scope.
#[local] Open Scope py_scope.

Definition emit (e : Event) : Py unit :=
  fun w => (Returned tt, {| trace := trace w ++ [e]; dirs := dirs w; files := files w |}).

Definition LF : string := String (ascii_of_nat 10) EmptyString.
Definition CR : string := String (ascii_of_nat 13) EmptyString.

(** [print(text)] and [print(text, end=e)]. *)
Definition print_end (text e : string) : Py unit := emit (Stdout (text +:+ e)).
Definition print (text : string) : Py unit := print_end text LF.

(** [time.sleep(seconds)]. *)
Definition time_sleep (seconds : Z) : Py unit := emit (Time_sleep seconds).

(** [os.makedirs(path, exist_ok=True)]. *)
Definition os_makedirs (path : string) : Py unit :=
  fun w => (Returned tt,
            {| trace := trace w ++ [Makedirs path]; dirs := {[path]} ∪ dirs w; files := files w |}).

(** [file.GetContentFile(path)]: the item's bytes replace whatever the local
    path held. *)
Definition file_GetContentFile (file : DriveFile) (path : string) : Py unit :=
  fun w => (Returned tt,
            {| trace := trace w ++ [GetContentFile file path]; dirs := dirs w;
               files := <[path := content file]> (files w) |}).

(** [drive.ListFile({'q': q}).GetList()]. *)
Definition drive_ListFile `{GoogleDrive} (q : string) : Py (list DriveFile) :=
  emit (ListFile q) ;; ret (GetList q).

(** [for x in l: body]. *)
Fixpoint for_ {A : Type} (l : list A) (body : A -> Py unit) : Py unit :=
  match l with
  | [] => ret tt
  | x :: rest => body x ;; for_ rest body
  end.

(** [range(start, stop, step)]. *)
Fixpoint range_from (fuel : nat) (i stop step : Z) : list Z :=
  match fuel with
  | O => []
  | S fuel' =>
      if (if (0 <? step)%Z then (i <? stop)%Z else (stop <? i)%Z)
      then i :: range_from fuel' (i + step)%Z stop step
      else []
  end.

Definition range (start_ stop step : Z) : list Z :=
  range_from (Z.abs_nat (stop - start_)) start_ stop step.

(* ===================================================================== *)
(** * [run_fire_risk_analysis]: the exports                               *)
(* ===================================================================== *)

(** Lines 95-106. *)
Definition export_layer (area : Geometry) (image : Image) (name : string) : Py unit :=
  let task := {| image := image;
                 description := name;
                 folder := "EarthEnginefatemeh";
                 fileNamePrefix := name;
                 region := bounds area;
                 scale := 30;
                 maxPixels := 10000000000000 |} in
  emit (Task_start task) ;;
  print ("Export started: " +:+ name).

(** Lines 15-117. *)
Definition run_fire_risk_analysis `{EarthEngine} `{Runtime} (longitude latitude : Q) : Py unit :=
  emit (Initialize "project-ee-458713") ;;
  let area := area longitude latitude in
  let ndvi := ndvi (median (s2 area)) in
  let lst := lst (mean (lstCol area)) in
  let precip := precip (sum (chirpsCol area)) in
  let slope := slope area in
  let aspect := aspect area in
  let ndvi_norm := ndvi_norm ndvi in
  let lst_norm := lst_norm lst in
  let slope_norm := slope_norm slope in
  let aspect_south := aspect_south aspect in
  let precip_norm := precip_norm precip in
  let fireRisk := fireRisk lst_norm ndvi_norm slope_norm aspect_south precip_norm in
  export_layer area ndvi ("NDVI_" +:+ format_float latitude +:+ "_" +:+ format_float longitude) ;;
  export_layer area lst ("LST_" +:+ format_float latitude +:+ "_" +:+ format_float longitude) ;;
  export_layer area precip ("Precip_" +:+ format_float latitude +:+ "_" +:+ format_float longitude) ;;
  export_layer area slope ("Slope_" +:+ format_float latitude +:+ "_" +:+ format_float longitude) ;;
  export_layer area aspect_south ("Aspect_Score_" +:+ format_float latitude +:+ "_" +:+ format_float longitude) ;;
  export_layer area fireRisk ("Fire_Risk_" +:+ format_float latitude +:+ "_" +:+ format_float longitude) ;;
  print "All export tasks started. Please wait for completion before downloading.".

(* ===================================================================== *)
(** * [download_exports_from_drive]                                      *)
(* ===================================================================== *)

Definition folder_name : string := "EarthEnginefatemeh".
Definition download_path : string := "downloads".

(** Lines 122-152. *)
Definition download_exports_from_drive `{GoogleDrive} `{Runtime} : Py unit :=
  emit LocalWebserverAuth ;;
  file_list <- drive_ListFile
    ("title='" +:+ folder_name +:+
     "' and mimeType='application/vnd.google-apps.folder' and trashed=false") ;;
  match file_list with
  | [] => raise ("Folder '" +:+ folder_name +:+ "' not found in Drive")
  | file0 :: _ =>
      let folder_id := id file0 in
      file_list <- drive_ListFile ("'" +:+ folder_id +:+ "' in parents and trashed=false") ;;
      os_makedirs download_path ;;
      for_ file_list (fun file =>
        print ("Downloading " +:+ title file +:+ "...") ;;
        file_GetContentFile file (os_path_join download_path (title file))) ;;
      print "✅ All files downloaded."
  end.

(* ===================================================================== *)
(** * The map GUI: provinces, pixel conversion, the click handler         *)
(* ===================================================================== *)

Definition Province : Type := (string * Q * Q)%type.

(** Lines 158-189. *)
Definition PROVINCES : list Province := [
  ("Tehran", 35.6892, 51.3890);
  ("Isfahan", 32.6519, 51.6680);
  ("Fars", 29.5893, 52.5311);
  ("Razavi Khorasan", 36.3000, 59.6000);
  ("Mazandaran", 36.5525, 53.0762);
  ("Kurdistan", 34.7800, 46.5300);
  ("Khuzestan", 31.9391, 48.6692);
  ("East Azerbaijan", 38.0700, 46.2960);
  ("West Azerbaijan", 37.5300, 45.0000);
  ("Ardabil", 38.2500, 48.3000);
  ("Zanjan", 36.6764, 48.4963);
  ("Qazvin", 36.2700, 50.0000);
  ("Gilan", 37.2800, 49.5832);
  ("Golestan", 36.8400, 54.4300);
  ("Semnan", 35.5700, 53.4000);
  ("Alborz", 35.8400, 50.9400);
  ("Qom", 34.6400, 50.8800);
  ("Markazi", 34.1000, 49.7000);
  ("Hamedan", 34.8000, 48.5000);
  ("Ilam", 33.6300, 46.4200);
  ("Lorestan", 33.5800, 48.3500);
  ("Chaharmahal and Bakhtiari", 32.3200, 50.8600);
  ("Kohgiluyeh and Boyer-Ahmad", 30.6500, 51.6000);
  ("Bushehr", 28.9200, 50.8300);
  ("Hormozgan", 27.2000, 56.3700);
  ("Sistan and Baluchestan", 29.4900, 60.8500);
  ("Kerman", 30.2839, 57.0834);
  ("Yazd", 31.8974, 54.3569);
  ("South Khorasan", 32.8700, 59.2200);
  ("North Khorasan", 37.4700, 57.3300)
]%Q.

(** Lines 192-194. *)
Definition MIN_LAT : Q := 25.
Definition MAX_LAT : Q := 39.
Definition MIN_LON : Q := 44.
Definition MAX_LON : Q := 63.
Definition WIDTH : Q := 800.
Definition HEIGHT : Q := 1000.

(** [int(q)]: truncation towards zero. *)
Definition int (q : Q) : Z := Z.quot (Qnum q) (Zpos (Qden q)).

(** Lines 197-201, in exact arithmetic. *)
Definition geo_to_pixel (lat lon : Q) : Z * Z :=
  let x := ((lon - MIN_LON) / (MAX_LON - MIN_LON) * WIDTH)%Q in
  let y := ((MAX_LAT - lat) / (MAX_LAT - MIN_LAT) * HEIGHT)%Q in
  (int x, int y).

(** Lines 204-208, in exact arithmetic; the pixel position is a pair of
    integers. *)
Definition pixel_to_geo (x y : Z) : Q * Q :=
  let lon := (inject_Z x / WIDTH * (MAX_LON - MIN_LON) + MIN_LON)%Q in
  let lat := (MAX_LAT - inject_Z y / HEIGHT * (MAX_LAT - MIN_LAT))%Q in
  (lat, lon).

(** [math.hypot]. *)
Definition hypot (a b : Q) : R := sqrt (Q2R a * Q2R a + Q2R b * Q2R b).

(** A distance or [float("inf")]. *)
Inductive Dist : Type :=
| finite (d : R)
| inf.

(** [dist < min_dist]. *)
Definition dist_lt (d : R) (min_dist : Dist) : bool :=
  match min_dist with
  | inf => true
  | finite m => if Rlt_dec d m then true else false
  end.

(** Lines 216-222: the loop over the provinces, as a fold over the pair
    [(nearest, min_dist)]. *)
Definition nearest_step (lat lon : Q) (st : option Province * Dist) (prov : Province)
  : option Province * Dist :=
  let '(name, plat, plon) := prov in
  let dist := hypot (lat - plat) (lon - plon) in
  if dist_lt dist (snd st) then (Some (name, plat, plon), finite dist) else st.

Definition nearest_province (provinces : list Province) (lat lon : Q) : option Province :=
  fst (fold_left (nearest_step lat lon) provinces (None, inf)).

(** The click event of the canvas: [event.x], [event.y]. *)
Record ClickEvent : Type := {
  event_x : Z;
  event_y : Z
}.

(** Lines 211-238. *)
Definition on_map_click `{EarthEngine} `{GoogleDrive} `{Runtime} (event : ClickEvent) : Py unit :=
  let '(lat, lon) := pixel_to_geo (event_x event) (event_y event) in
  let nearest := nearest_province PROVINCES lat lon in
  match nearest with
  | Some (name, plat, plon) =>
      print ("You clicked near: " +:+ name +:+ " (lat: " +:+ format_float plat +:+
             ", lon: " +:+ format_float plon +:+ ")") ;;
      run_fire_risk_analysis plon plat ;;
      print "Waiting for exports to complete before downloading..." ;;
      for_ (range 60 0 (-1)) (fun remaining =>
        print_end (CR +:+ "Time remaining: " +:+ pretty remaining +:+ " seconds") EmptyString ;;
        time_sleep 1) ;;
      print (LF +:+ "Starting download...") ;;
      download_exports_from_drive
  | None => ret tt
  end.


(* ===================================================================== *)
(** * Reading a trace                                                    *)
(* ===================================================================== *)

(** The world after some more calls. *)
Definition add_events (w : World) (evs : list Event) : World :=
  {| trace := trace w ++ evs; dirs := dirs w; files := files w |}.

(** The export jobs started, the files fetched with their local paths, and
    the sleeps, each in order. *)
Definition started_tasks (t : list Event) : list ExportTask :=
  flat_map (fun e => match e with Task_start task => [task] | _ => [] end) t.

Definition downloads (t : list Event) : list (DriveFile * string) :=
  flat_map (fun e => match e with GetContentFile f path => [(f, path)] | _ => [] end) t.

Definition sleeps (t : list Event) : list Z :=
  flat_map (fun e => match e with Time_sleep s => [s] | _ => [] end) t.

(** The calls of the retrieval step. *)
Definition is_drive_call (e : Event) : bool :=
  match e with
  | LocalWebserverAuth | ListFile _ | Makedirs _ | GetContentFile _ _ => true
  | _ => false
  end.

(** The two listing queries of the retrieval step. *)
Definition folder_query : string :=
  "title='EarthEnginefatemeh' and mimeType='application/vnd.google-apps.folder' and trashed=false".
Definition children_query (folder_id : string) : string :=
  "'" +:+ folder_id +:+ "' in parents and trashed=false".

(** The local files after fetching a listing, one item after the other. *)
Definition fetch_all `{Runtime} (listing : list DriveFile) (fs : gmap string string)
  : gmap string string :=
  fold_left (fun fs f => <[os_path_join download_path (title f) := content f]> fs) listing fs.

(** The distance of a province from a point, as the click handler computes
    it, and its square in exact rational arithmetic. *)
Definition distance_to (lat lon : Q) (prov : Province) : R :=
  hypot (lat - snd (fst prov)) (lon - snd prov).

Definition distance2_to (lat lon : Q) (prov : Province) : Q :=
  ((lat - snd (fst prov)) * (lat - snd (fst prov))
   + (lon - snd prov) * (lon - snd prov))%Q.

(** The loop of the click handler on squared rational distances, which can
    be evaluated. *)
Definition nearest_step2 (lat lon : Q) (st : option Province * option Q) (prov : Province)
  : option Province * option Q :=
  let d := distance2_to lat lon prov in
  match snd st with
  | None => (Some prov, Some d)
  | Some m => if negb (Qle_bool m d) then (Some prov, Some d) else st
  end.

Definition nearest_province2 (provinces : list Province) (lat lon : Q) : option Province :=
  fst (fold_left (nearest_step2 lat lon) provinces (None, None)).

(** The two loops walk through corresponding states. *)
Definition same_state (lat lon : Q) (st : option Province * Dist)
           (st2 : option Province * option Q) : Prop :=
  fst st = fst st2
  /\ match snd st, snd st2 with
     | inf, None => True
     | finite d, Some m => d = sqrt (Q2R m) /\ (0 <= Q2R m)%R
     | _, _ => False
     end.

(** The calls of the waiting loop of the click handler, lines 232-237. *)
Definition wait_events : list Event :=
  [Stdout ("Waiting for exports to complete before downloading..." +:+ LF)]
  ++ flat_map (fun remaining : Z =>
                 [Stdout ((CR +:+ "Time remaining: " +:+ pretty remaining +:+ " seconds")
                          +:+ EmptyString);
                  Time_sleep 1])
              (range 60 0 (-1))
  ++ [Stdout ((LF +:+ "Starting download...") +:+ LF)].

(** The calls of one run of the analysis, read off a run from the empty
    world. *)
Definition run_events `{EarthEngine} `{Runtime} (longitude latitude : Q) : list Event :=
  trace (snd (run_fire_risk_analysis longitude latitude
                {| trace := []; dirs := ∅; files := ∅ |})).

(* ===================================================================== *)
(** * Small concrete backends, used to run the definitions               *)
(* ===================================================================== *)

(** A raster backend that holds no imagery at all. *)
Definition empty_engine : EarthEngine := {|
  ImageCollection := fun _ => [];
  Image_asset := fun _ => [("elevation", fun _ => 0%R)];
  ee_Date := fun _ => 0%Z;
  clip := fun img _ => img;
  Algorithms_Terrain := fun img => img ++ [("slope", fun _ => 0%R); ("aspect", fun _ => 0%R)]
|}.

Definition everywhere (v : R) (bs : list string) : Image := map (fun b => (b, fun _ => v)) bs.

Definition scene_at (t : Z) (cloud : Q) (img : Image) : Scene := {|
  intersects := fun _ => true;
  time_start := t;
  property := fun name => if String.eqb name "CLOUDY_PIXEL_PERCENTAGE" then Some cloud else None;
  bands := img
|}.

(** A raster backend with two July scenes of each source, and dates read
    as milliseconds since 1970. *)
Definition sample_engine : EarthEngine := {|
  ImageCollection := fun name =>
    if String.eqb name "COPERNICUS/S2_SR" then
      [scene_at 1689000000000 3 [("B4", fun _ => 1%R); ("B8", fun _ => 3%R)];
       scene_at 1690000000000 40 [("B4", fun _ => 2%R); ("B8", fun _ => 2%R)];
       scene_at 1691000000000 7 [("B4", fun _ => 1%R); ("B8", fun _ => 3%R)]]
    else if String.eqb name "MODIS/006/MOD11A2" then
      [scene_at 1689000000000 90 [("LST_Day_1km", fun _ => 15000%R); ("QC_Day", fun _ => 0%R)];
       scene_at 1690000000000 90 [("LST_Day_1km", fun _ => 16000%R); ("QC_Day", fun _ => 0%R)]]
    else if String.eqb name "UCSB-CHG/CHIRPS/DAILY" then
      [scene_at 1686000000000 0 [("precipitation", fun _ => 4%R)];
       scene_at 1690000000000 0 [("precipitation", fun _ => 6%R)];
       scene_at 1700000000000 0 [("precipitation", fun _ => 100%R)]]
    else [];
  Image_asset := fun _ => [("elevation", fun _ => 1500%R)];
  ee_Date := fun d =>
    if String.eqb d "2023-06-01" then 1685577600000%Z
    else if String.eqb d "2023-07-01" then 1688169600000%Z
    else if String.eqb d "2023-08-31" then 1693440000000%Z
    else 0%Z;
  clip := fun img _ => img;
  Algorithms_Terrain := fun img => img ++ [("slope", fun _ => 12%R); ("aspect", fun _ => 180%R)]
|}.

(** A Python runtime that writes a rational as numerator/denominator and
    joins paths with a slash. *)
Definition sample_runtime : Runtime := {|
  format_float := fun q => pretty (Qnum q) +:+ "/" +:+ pretty (Zpos (Qden q));
  os_path_join := fun a b => a +:+ "/" +:+ b
|}.

(** A storage backend without the export folder, and one with the folder
    and two exported files. *)
Definition empty_drive : GoogleDrive := {| GetList := fun _ => [] |}.

Definition sample_folder : DriveFile :=
  {| id := "F1"; title := "EarthEnginefatemeh"; content := EmptyString |}.
Definition sample_file_1 : DriveFile :=
  {| id := "A1"; title := "NDVI_35.6892_51.389.tif"; content := "ndvi-bytes" |}.
Definition sample_file_2 : DriveFile :=
  {| id := "A2"; title := "Fire_Risk_35.6892_51.389.tif"; content := "risk-bytes" |}.

Definition sample_drive : GoogleDrive := {|
  GetList := fun q =>
    if String.eqb q "title='EarthEnginefatemeh' and mimeType='application/vnd.google-apps.folder' and trashed=false"
    then [sample_folder]
    else if String.eqb q "'F1' in parents and trashed=false"
    then [sample_file_1; sample_file_2]
    else []
|}.

Definition empty_world : World := {| trace := []; dirs := ∅; files := ∅ |}.

(* ===================================================================== *)
(** * [os.path.join] on a POSIX system                                   *)
(* ===================================================================== *)






(* ===================================================================== *)
(** * The map conversions in binary64                                    *)
(* ===================================================================== *)

(** A Python [int] as a float.  Doubling and adding one are exact below
    [2^53], so the result is the integer itself for every integer of that
    size; pixel positions and the constants of the map are far below. *)
Fixpoint float_of_positive (p : positive) : PrimFloat.float :=
  match p with
  | xH => PrimFloat.one
  | xO p' => PrimFloat.mul PrimFloat.two (float_of_positive p')
  | xI p' => PrimFloat.add (PrimFloat.mul PrimFloat.two (float_of_positive p')) PrimFloat.one
  end.

Definition float_of_int (z : Z) : PrimFloat.float :=
  match z with
  | Z0 => PrimFloat.zero
  | Zpos p => float_of_positive p
  | Zneg p => PrimFloat.opp (float_of_positive p)
  end.

(** A decimal literal of the source, such as [35.6892]: the binary64 number
    nearest to it, which the correctly rounded quotient of numerator and
    denominator is. *)
Definition float_literal (q : Q) : PrimFloat.float :=
  PrimFloat.div (float_of_int (Qnum q)) (float_of_int (Zpos (Qden q))).

(** [int(f)] on a float: the fraction is cut off; Python raises a
    [ValueError] on a NaN and an [OverflowError] on an infinity. *)
Definition int_of_float (f : PrimFloat.float) : Outcome Z :=
  match FloatOps.Prim2SF f with
  | SpecFloat.S754_zero _ => Returned 0%Z
  | SpecFloat.S754_finite s m e =>
      let magnitude := match e with
                       | Z0 => Zpos m
                       | Zpos k => Z.shiftl (Zpos m) (Zpos k)
                       | Zneg k => Z.shiftr (Zpos m) (Zpos k)
                       end in
      Returned (if s then Z.opp magnitude else magnitude)
  | SpecFloat.S754_infinity _ => Raised "cannot convert float infinity to integer"
  | SpecFloat.S754_nan => Raised "cannot convert float NaN to integer"
  end.

(** Lines 197-201, as computed on floats: [int(x)] and then [int(y)]. *)
Definition geo_to_pixel_b64 (lat lon : PrimFloat.float) : Outcome (Z * Z) :=
  let x := PrimFloat.mul
             (PrimFloat.div (PrimFloat.sub lon (float_literal MIN_LON))
                            (float_literal (MAX_LON - MIN_LON)))
             (float_literal WIDTH) in
  let y := PrimFloat.mul
             (PrimFloat.div (PrimFloat.sub (float_literal MAX_LAT) lat)
                            (float_literal (MAX_LAT - MIN_LAT)))
             (float_literal HEIGHT) in
  match int_of_float x with
  | Raised message => Raised message
  | Returned px =>
      match int_of_float y with
      | Raised message => Raised message
      | Returned py => Returned (px, py)
      end
  end.

(** Lines 204-208, as computed on floats, for an integer pixel position. *)
Definition pixel_to_geo_b64 (x y : Z) : PrimFloat.float * PrimFloat.float :=
  let lon := PrimFloat.add
               (PrimFloat.mul (PrimFloat.div (float_of_int x) (float_literal WIDTH))
                              (float_literal (MAX_LON - MIN_LON)))
               (float_literal MIN_LON) in
  let lat := PrimFloat.sub
               (float_literal MAX_LAT)
               (PrimFloat.mul (PrimFloat.div (float_of_int y) (float_literal HEIGHT))
                              (float_literal (MAX_LAT - MIN_LAT))) in
  (lat, lon).

(** The integers from [lo], [n] of them. *)
Definition Z_interval (lo : Z) (n : nat) : list Z := map (fun k => (lo + Z.of_nat k)%Z) (seq 0 n).

(** The exact value of a finite float, as a rational. *)
Definition Q_of_float (f : PrimFloat.float) : Q :=
  match FloatOps.Prim2SF f with
  | SpecFloat.S754_finite s m e =>
      let magnitude := match e with
                       | Z0 => (Zpos m # 1)
                       | Zpos k => (Z.shiftl (Zpos m) (Zpos k) # 1)
                       | Zneg k => (Zpos m # Pos.shiftl 1 (Npos k))
                       end in
      if s then Qopp magnitude else magnitude
  | _ => 0
  end.

(* ===================================================================== *)
(** * [create_gui]: the window and the labels                            *)
(* ===================================================================== *)

(** The calls that [create_gui] makes on the toolkit, in order. *)
Inductive GuiCall : Type :=
| Tk_root
| Root_title (text : string)
| Canvas_new (width height : Q)
| Canvas_pack
| Image_open (path : string)
| Image_resize (width height : Q)
| PhotoImage
| Create_image (x y : Z)
| Create_text (x y : Z) (text fill : string) (font : string * Z * string)
| Canvas_bind (sequence : string)
| Mainloop.

(** Lines 255-257: one label per province, at the pixel that
    [geo_to_pixel] computes on floats for its coordinates.  The loop stops
    at the first province for which [int] raises. *)
Fixpoint draw_labels (provinces : list Province) : list GuiCall * option string :=
  match provinces with
  | [] => ([], None)
  | (name, lat, lon) :: rest =>
      match geo_to_pixel_b64 (float_literal lat) (float_literal lon) with
      | Returned (x, y) =>
          let '(calls, err) := draw_labels rest in
          (Create_text x y name "red" ("Arial", 10%Z, "bold") :: calls, err)
      | Raised message => ([], Some message)
      end
  end.

(** Lines 241-262: the calls made, and how the function ends; the handler
    bound to the click is [on_map_click]. *)
Definition create_gui : list GuiCall * Outcome unit :=
  let setup :=
    [Tk_root;
     Root_title "Iran Map Fire Risk Analysis";
     Canvas_new WIDTH HEIGHT;
     Canvas_pack;
     Image_open "iran_map.png";
     Image_resize WIDTH HEIGHT;
     PhotoImage;
     Create_image 0 0] in
  match draw_labels PROVINCES with
  | (calls, None) => (setup ++ calls ++ [Canvas_bind "<Button-1>"; Mainloop], Returned tt)
  | (calls, Some message) => (setup ++ calls, Raised message)
  end.

(** The labels drawn, as position and text. *)
Definition labels (calls : list GuiCall) : list (Z * Z * string) :=
  flat_map (fun c => match c with
                     | Create_text x y text _ _ => [(x, y, text)]
                     | _ => []
                     end) calls.

(** The export jobs that a list of new calls starts, by file name. *)
Definition export_names (t : list Event) : list string :=
  map fileNamePrefix (started_tasks t).

(** The listing queries sent to the storage backend. *)
Definition listings (t : list Event) : list string :=
  flat_map (fun e => match e with ListFile q => [q] | _ => [] end) t.

(* ===================================================================== *)
(** * Properties of the normalisation and of the risk index              *)
(* ===================================================================== *)

#[local] Open Scope R_scope.

Lemma sample_map_bands (f : R -> R) (img : Image) (p : Pixel) :
  sample (map_bands f img) p = map (fun nv => (fst nv, f (snd nv))) (sample img p).
Proof.
  unfold sample, map_bands. rewrite !map_map. reflexivity.
Qed.

Lemma clamp_unit_interval (v : R) : 0 <= Rmin (Rmax v 0) 1 <= 1.
Proof.
  unfold Rmin, Rmax.
  destruct (Rle_dec v 0); destruct (Rle_dec _ 1); lra.
Qed.

Lemma clamp_above (v : R) : 1 <= v -> Rmin (Rmax v 0) 1 = 1.
Proof.
  intros Hv. unfold Rmin, Rmax.
  destruct (Rle_dec v 0); destruct (Rle_dec _ 1); lra.
Qed.

Lemma clamp_below (v : R) : v <= 0 -> Rmin (Rmax v 0) 1 = 0.
Proof.
  intros Hv. unfold Rmin, Rmax.
  destruct (Rle_dec v 0); destruct (Rle_dec _ 1); lra.
Qed.

Lemma clamp_inside (v : R) : 0 <= v <= 1 -> Rmin (Rmax v 0) 1 = v.
Proof.
  intros Hv. unfold Rmin, Rmax.
  destruct (Rle_dec v 0); destruct (Rle_dec _ 1); lra.
Qed.

Lemma unit_scale_inside (v low high : R) :
  low < high -> low <= v <= high -> 0 <= (v - low) / (high - low) <= 1.
Proof.
  intros Hlh Hv.
  assert (Hpos : 0 < / (high - low)) by (apply Rinv_0_lt_compat; lra).
  unfold Rdiv. split.
  - apply Rmult_le_pos; lra.
  - apply Rmult_le_reg_r with (r := high - low); [lra |].
    rewrite Rmult_assoc, Rinv_l by lra. lra.
Qed.

Lemma normalised_in_unit_interval (img : Image) (low high : R) (p : Pixel) :
  Forall (fun nv => 0 <= snd nv <= 1) (sample (clamp (unitScale img low high) 0 1) p).
Proof.
  induction img as [| b img IH]; cbn.
  - constructor.
  - constructor; [apply clamp_unit_interval | exact IH].
Qed.

Lemma normalised_one_band (n : string) (V : Raster) (low high : R) (p : Pixel) :
  sample (clamp (unitScale [(n, V)] low high) 0 1) p
  = [(n, Rmin (Rmax ((V p - low) / (high - low)) 0) 1)].
Proof. reflexivity. Qed.

Lemma fireRisk_one_band (nl nn ns na np : string) (L N S A P : Raster) (p : Pixel) :
  sample (fireRisk [(nl, L)] [(nn, N)] [(ns, S)] [(na, A)] [(np, P)]) p
  = [("Fire_Risk", 0.30 * L p - 0.30 * N p + 0.15 * S p + 0.15 * A p - 0.10 * P p)].
Proof. cbn. do 2 f_equal. lra. Qed.

(** C1.  The risk raster is the weighted sum of its five inputs, pixel by
    pixel: [0.30*LST - 0.30*NDVI + 0.15*Slope + 0.15*AspectSouth -
    0.10*Precip], it carries the one band [Fire_Risk], the inputs
    (1, 0, 0, 0, 0) give 0.30, and inputs that agree at every pixel give
    outputs that agree at every pixel. *)
Theorem fireRisk_weighted_sum :
  forall (nl nn ns na np : string) (L N S A P : Raster),
    (forall p : Pixel,
        sample (fireRisk [(nl, L)] [(nn, N)] [(ns, S)] [(na, A)] [(np, P)]) p
        = [("Fire_Risk",
            0.30 * L p - 0.30 * N p + 0.15 * S p + 0.15 * A p - 0.10 * P p)])
    /\ (forall p : Pixel,
           sample (fireRisk (ee_Image 1) (ee_Image 0) (ee_Image 0) (ee_Image 0) (ee_Image 0)) p
           = [("Fire_Risk", 0.30)])
    /\ (forall (L' N' S' A' P' : Raster),
           (forall p, L p = L' p) -> (forall p, N p = N' p) -> (forall p, S p = S' p) ->
           (forall p, A p = A' p) -> (forall p, P p = P' p) ->
           forall p : Pixel,
             sample (fireRisk [(nl, L)] [(nn, N)] [(ns, S)] [(na, A)] [(np, P)]) p
             = sample (fireRisk [(nl, L')] [(nn, N')] [(ns, S')] [(na, A')] [(np, P')]) p).
Proof.
  intros nl nn ns na np L N S A P.
  split; [| split].
  - intros p. apply fireRisk_one_band.
  - intros p. unfold ee_Image. rewrite fireRisk_one_band. do 2 f_equal. lra.
  - intros L' N' S' A' P' HL HN HS HA HP p.
    rewrite !fireRisk_one_band, HL, HN, HS, HA, HP. reflexivity.
Qed.

Lemma fireRisk_weighted_sum_witness :
  sample (fireRisk [("LST", fun _ => 1)] [("NDVI", fun _ => 0)] [("Slope", fun _ => 0)]
                   [("Aspect_Score", fun _ => 0)] [("Precip", fun _ => 0)]) (0, 0)%Z
  = sample (fireRisk [("LST", fun _ => 1 * 1)] [("NDVI", fun _ => 0)] [("Slope", fun _ => 0)]
                     [("Aspect_Score", fun _ => 0)] [("Precip", fun _ => 0)]) (0, 0)%Z.
Proof.
  apply (proj2 (proj2 (fireRisk_weighted_sum "LST" "NDVI" "Slope" "Aspect_Score" "Precip"
                         (fun _ => 1) (fun _ => 0) (fun _ => 0) (fun _ => 0) (fun _ => 0))));
    intros p; lra.
Defined.

(** C3.  After [unitScale] and [clamp] every value of every band lies in
    [0, 1], whatever the input value; an input of the upper bound plus 1000
    gives 1 and an input of the lower bound minus 1000 gives 0; an input
    between the bounds is rescaled linearly; for NDVI (0..1), LST (20..45),
    Slope (0..60) and Precip (0..150). *)
Theorem normalizer_clamps :
  forall (img : Image) (n : string) (V : Raster) (p : Pixel),
    (Forall (fun nv => 0 <= snd nv <= 1) (sample (ndvi_norm img) p)
     /\ Forall (fun nv => 0 <= snd nv <= 1) (sample (lst_norm img) p)
     /\ Forall (fun nv => 0 <= snd nv <= 1) (sample (slope_norm img) p)
     /\ Forall (fun nv => 0 <= snd nv <= 1) (sample (precip_norm img) p))
    /\ ((V p = 1 + 1000 -> sample (ndvi_norm [(n, V)]) p = [(n, 1)])
        /\ (V p = 45 + 1000 -> sample (lst_norm [(n, V)]) p = [(n, 1)])
        /\ (V p = 60 + 1000 -> sample (slope_norm [(n, V)]) p = [(n, 1)])
        /\ (V p = 150 + 1000 -> sample (precip_norm [(n, V)]) p = [(n, 1)]))
    /\ ((V p = 0 - 1000 -> sample (ndvi_norm [(n, V)]) p = [(n, 0)])
        /\ (V p = 20 - 1000 -> sample (lst_norm [(n, V)]) p = [(n, 0)])
        /\ (V p = 0 - 1000 -> sample (slope_norm [(n, V)]) p = [(n, 0)])
        /\ (V p = 0 - 1000 -> sample (precip_norm [(n, V)]) p = [(n, 0)]))
    /\ ((0 <= V p <= 1 -> sample (ndvi_norm [(n, V)]) p = [(n, (V p - 0) / (1 - 0))])
        /\ (20 <= V p <= 45 -> sample (lst_norm [(n, V)]) p = [(n, (V p - 20) / (45 - 20))])
        /\ (0 <= V p <= 60 -> sample (slope_norm [(n, V)]) p = [(n, (V p - 0) / (60 - 0))])
        /\ (0 <= V p <= 150 ->
            sample (precip_norm [(n, V)]) p = [(n, (V p - 0) / (150 - 0))])).
Proof.
  intros img n V p.
  split; [| split; [| split]].
  - repeat split; apply normalised_in_unit_interval.
  - repeat split; intros HV;
      (unfold ndvi_norm, lst_norm, slope_norm, precip_norm;
       rewrite normalised_one_band, HV; do 2 f_equal;
       apply clamp_above; apply Rmult_le_reg_r with (r := 25 * 60 * 150);
       [lra | field_simplify; lra]).
  - repeat split; intros HV;
      (unfold ndvi_norm, lst_norm, slope_norm, precip_norm;
       rewrite normalised_one_band, HV; do 2 f_equal;
       apply clamp_below; apply Rmult_le_reg_r with (r := 25 * 60 * 150);
       [lra | field_simplify; lra]).
  - split; [| split; [| split]]; intros HV;
      (unfold ndvi_norm, lst_norm, slope_norm, precip_norm;
       rewrite normalised_one_band; do 2 f_equal;
       apply clamp_inside, unit_scale_inside; lra).
Qed.

Lemma normalizer_clamps_witness :
  (sample (ndvi_norm [("NDVI", fun _ => 1 + 1000)]) (0, 0)%Z = [("NDVI", 1)]
   /\ sample (lst_norm [("LST", fun _ => 45 + 1000)]) (0, 0)%Z = [("LST", 1)]
   /\ sample (slope_norm [("Slope", fun _ => 60 + 1000)]) (0, 0)%Z = [("Slope", 1)]
   /\ sample (precip_norm [("Precip", fun _ => 150 + 1000)]) (0, 0)%Z = [("Precip", 1)])
  /\ (sample (ndvi_norm [("NDVI", fun _ => 0 - 1000)]) (0, 0)%Z = [("NDVI", 0)]
      /\ sample (lst_norm [("LST", fun _ => 20 - 1000)]) (0, 0)%Z = [("LST", 0)]
      /\ sample (slope_norm [("Slope", fun _ => 0 - 1000)]) (0, 0)%Z = [("Slope", 0)]
      /\ sample (precip_norm [("Precip", fun _ => 0 - 1000)]) (0, 0)%Z = [("Precip", 0)])
  /\ (sample (ndvi_norm [("NDVI", fun _ => 1 / 2)]) (0, 0)%Z = [("NDVI", (1 / 2 - 0) / (1 - 0))]
      /\ sample (lst_norm [("LST", fun _ => 30)]) (0, 0)%Z = [("LST", (30 - 20) / (45 - 20))]
      /\ sample (slope_norm [("Slope", fun _ => 15)]) (0, 0)%Z
         = [("Slope", (15 - 0) / (60 - 0))]
      /\ sample (precip_norm [("Precip", fun _ => 75)]) (0, 0)%Z
         = [("Precip", (75 - 0) / (150 - 0))]).
Proof.
  split; [| split]; repeat split.
  - destruct (normalizer_clamps [] "NDVI" (fun _ => 1 + 1000) (0, 0)%Z) as (_ & (H & _) & _).
    apply H. reflexivity.
  - destruct (normalizer_clamps [] "LST" (fun _ => 45 + 1000) (0, 0)%Z) as (_ & (_ & H & _) & _).
    apply H. reflexivity.
  - destruct (normalizer_clamps [] "Slope" (fun _ => 60 + 1000) (0, 0)%Z)
      as (_ & (_ & _ & H & _) & _).
    apply H. reflexivity.
  - destruct (normalizer_clamps [] "Precip" (fun _ => 150 + 1000) (0, 0)%Z)
      as (_ & (_ & _ & _ & H) & _).
    apply H. reflexivity.
  - destruct (normalizer_clamps [] "NDVI" (fun _ => 0 - 1000) (0, 0)%Z) as (_ & _ & (H & _) & _).
    apply H. reflexivity.
  - destruct (normalizer_clamps [] "LST" (fun _ => 20 - 1000) (0, 0)%Z)
      as (_ & _ & (_ & H & _) & _).
    apply H. reflexivity.
  - destruct (normalizer_clamps [] "Slope" (fun _ => 0 - 1000) (0, 0)%Z)
      as (_ & _ & (_ & _ & H & _) & _).
    apply H. reflexivity.
  - destruct (normalizer_clamps [] "Precip" (fun _ => 0 - 1000) (0, 0)%Z)
      as (_ & _ & (_ & _ & _ & H) & _).
    apply H. reflexivity.
  - destruct (normalizer_clamps [] "NDVI" (fun _ => 1 / 2) (0, 0)%Z) as (_ & _ & _ & (H & _)).
    apply H. lra.
  - destruct (normalizer_clamps [] "LST" (fun _ => 30) (0, 0)%Z) as (_ & _ & _ & (_ & H & _)).
    apply H. lra.
  - destruct (normalizer_clamps [] "Slope" (fun _ => 15) (0, 0)%Z)
      as (_ & _ & _ & (_ & _ & H & _)).
    apply H. lra.
  - destruct (normalizer_clamps [] "Precip" (fun _ => 75) (0, 0)%Z)
      as (_ & _ & _ & (_ & _ & _ & H)).
    apply H. lra.
Defined.

(** Bounds on [PI] from the series of [PI/4 = 2*atan(1/3) + atan(1/7)]. *)
Lemma PI_upper : PI < 3.141593.
Proof.
  pose proof (PI_2_3_7_ineq 3) as [_ H].
  unfold sum_f_R0, tg_alt, PI_2_3_7_tg, Ratan_seq in H.
  simpl in H. lra.
Qed.

Lemma PI_lower : 3.141592 < PI.
Proof.
  pose proof (PI_2_3_7_ineq 3) as [H _].
  unfold sum_f_R0, tg_alt, PI_2_3_7_tg, Ratan_seq in H.
  simpl in H. lra.
Qed.

(** The cosine just past the half turn: [3.1416] exceeds [PI] by less than
    [0.000008], so its cosine is above [-1], by less than [10^-10]. *)
Lemma cos_31416 : -1 < cos 3.1416 < -1 + 1 / 10000000000.
Proof.
  pose proof PI_upper as Hu. pose proof PI_lower as Hl.
  set (h := (3.1416 - PI) / 2).
  assert (Hh : 0 < h < 0.000004) by (unfold h; lra).
  replace 3.1416 with (2 * h + PI) by (unfold h; lra).
  rewrite neg_cos, cos_2a_sin.
  assert (Hs0 : 0 < sin h) by (apply sin_gt_0; lra).
  assert (Hs1 : sin h < h) by (apply sin_lt_x; lra).
  assert (Hsq : 0 < sin h * sin h < 0.000004 * 0.000004) by nra.
  lra.
Qed.

Lemma aspect_south_one_band (n : string) (A : Raster) (p : Pixel) :
  sample (aspect_south [(n, A)]) p
  = [("Aspect_Score", cos ((A p - 180) * 3.1416 / 180))].
Proof. reflexivity. Qed.

(** C4, as the spec states it, fails: at aspect 0 the score is not -1. *)
Lemma aspect_south_north_not_minus_one :
  sample (aspect_south [("Aspect", fun _ => 0)]) (0, 0)%Z <> [("Aspect_Score", -1)].
Proof.
  rewrite aspect_south_one_band. intros Heq.
  injection Heq as Hcos.
  replace ((0 - 180) * 3.1416 / 180) with (Ropp 3.1416) in Hcos by lra.
  rewrite cos_neg in Hcos.
  pose proof cos_31416. lra.
Qed.

(** C4, amended.  The score is [cos((aspect - 180) * 3.1416 / 180)], with
    the literal 3.1416 of the source in the place of pi; it lies in
    [-1, 1]; aspect 180 gives exactly 1; aspect 0 and aspect 360 give
    [cos 3.1416], which is above -1 by less than [10^-10]. *)
Theorem aspect_south_score :
  forall (n : string) (A : Raster) (p : Pixel),
    sample (aspect_south [(n, A)]) p
    = [("Aspect_Score", cos ((A p - 180) * 3.1416 / 180))]
    /\ -1 <= cos ((A p - 180) * 3.1416 / 180) <= 1
    /\ (A p = 180 -> sample (aspect_south [(n, A)]) p = [("Aspect_Score", 1)])
    /\ (A p = 0 \/ A p = 360 ->
        sample (aspect_south [(n, A)]) p = [("Aspect_Score", cos 3.1416)]
        /\ -1 < cos 3.1416 < -1 + 1 / 10000000000).
Proof.
  intros n A p. rewrite aspect_south_one_band.
  split; [reflexivity |].
  split; [apply COS_bound |].
  split.
  - intros ->. do 2 f_equal.
    replace ((180 - 180) * 3.1416 / 180) with 0 by lra. apply cos_0.
  - intros [-> | ->]; (split; [| apply cos_31416]); do 2 f_equal.
    + replace ((0 - 180) * 3.1416 / 180) with (Ropp 3.1416) by lra. apply cos_neg.
    + f_equal. lra.
Qed.

Lemma aspect_south_score_witness :
  sample (aspect_south [("Aspect", fun _ => 180)]) (0, 0)%Z = [("Aspect_Score", 1)]
  /\ sample (aspect_south [("Aspect", fun _ => 0)]) (0, 0)%Z = [("Aspect_Score", cos 3.1416)]
  /\ sample (aspect_south [("Aspect", fun _ => 360)]) (0, 0)%Z = [("Aspect_Score", cos 3.1416)].
Proof.
  split; [| split].
  - destruct (aspect_south_score "Aspect" (fun _ => 180) (0, 0)%Z) as (_ & _ & H & _).
    apply H. reflexivity.
  - destruct (aspect_south_score "Aspect" (fun _ => 0) (0, 0)%Z) as (_ & _ & _ & H).
    apply H. left. reflexivity.
  - destruct (aspect_south_score "Aspect" (fun _ => 360) (0, 0)%Z) as (_ & _ & _ & H).
    apply H. right. reflexivity.
Defined.

(* ===================================================================== *)
(** * Properties of the signal fetcher                                   *)
(* ===================================================================== *)





Lemma reduce_nil (f : list R -> R) : reduce f [] = [].
Proof. reflexivity. Qed.




(** C2.  When the reduced raster has no band (nothing matched the query),
    the fetched signal is the one-band constant raster of the documented
    default at every pixel: 0 for NDVI, 25 for LST, 10 for Precip.  The
    choice is one conditional on the band count of that one reduced raster,
    with the normal result in its other branch. *)
Theorem fallback_defaults :
  forall `{EarthEngine} (a : Geometry) (img : Image) (p : Pixel),
    (bandNames img = [] ->
     sample (ndvi img) p = [("NDVI", 0)]
     /\ sample (lst img) p = [("LST", 25)]
     /\ sample (precip img) p = [("Precip", 10)])
    /\ (s2 a = [] -> sample (ndvi (median (s2 a))) p = [("NDVI", 0)])
    /\ (lstCol a = [] -> sample (lst (mean (lstCol a))) p = [("LST", 25)])
    /\ (chirpsCol a = [] -> sample (precip (sum (chirpsCol a))) p = [("Precip", 10)])
    /\ ndvi img = (if (0 <? List.length (bandNames img))%nat
                   then rename (normalizedDifference img "B8" "B4") "NDVI"
                   else rename (ee_Image 0) "NDVI")
    /\ lst img = (if (0 <? List.length (bandNames img))%nat
                  then rename (subtract (multiply img (ee_Image 0.02)) (ee_Image 273.15)) "LST"
                  else rename (ee_Image 25) "LST")
    /\ precip img = (if (0 <? List.length (bandNames img))%nat
                     then rename img "Precip"
                     else rename (ee_Image 10) "Precip").
Proof.
  intros EE a img p.
  split; [| split; [| split; [| split]]].
  - intros Hnone. destruct img; [| discriminate]. repeat split; reflexivity.
  - intros ->. reflexivity.
  - intros ->. reflexivity.
  - intros ->. reflexivity.
  - repeat split; reflexivity.
Qed.

Lemma fallback_defaults_witness :
  (sample (ndvi []) (0, 0)%Z = [("NDVI", 0)]
   /\ sample (lst []) (0, 0)%Z = [("LST", 25)]
   /\ sample (precip []) (0, 0)%Z = [("Precip", 10)])
  /\ sample (ndvi (median (@s2 empty_engine (area 51.389 35.6892)))) (0, 0)%Z = [("NDVI", 0)]
  /\ sample (lst (mean (@lstCol empty_engine (area 51.389 35.6892)))) (0, 0)%Z = [("LST", 25)]
  /\ sample (precip (sum (@chirpsCol empty_engine (area 51.389 35.6892)))) (0, 0)%Z
     = [("Precip", 10)].
Proof.
  destruct (@fallback_defaults empty_engine (area 51.389 35.6892) [] (0, 0)%Z)
    as (H0 & H1 & H2 & H3 & _).
  split; [apply H0; reflexivity |].
  split; [apply H1; reflexivity |].
  split; [apply H2; reflexivity | apply H3; reflexivity].
Defined.



(** The sample backend, evaluated: the cloudy scene and the November scene
    are left out, and the three rasters come out as 1/2, 36.85 and 10. *)
Example sample_engine_values :
  values (@s2 sample_engine (area 51.389 35.6892)) "B8" (0, 0)%Z = [3; 3]
  /\ values (@s2 sample_engine (area 51.389 35.6892)) "B4" (0, 0)%Z = [1; 1]
  /\ values (@lstCol sample_engine (area 51.389 35.6892)) "LST_Day_1km" (0, 0)%Z
     = [15000; 16000]
  /\ values (@chirpsCol sample_engine (area 51.389 35.6892)) "precipitation" (0, 0)%Z
     = [4; 6].
Proof. repeat split; reflexivity. Qed.

Lemma median_values_pair (x : R) : median_values [x; x] = x.
Proof.
  unfold median_values, sort_values. cbn [fold_right insert_sorted].
  destruct (Rle_dec x x); cbn; lra.
Qed.

Example sample_engine_rasters :
  sample (ndvi (median (@s2 sample_engine (area 51.389 35.6892)))) (0, 0)%Z = [("NDVI", 1 / 2)]
  /\ sample (lst (mean (@lstCol sample_engine (area 51.389 35.6892)))) (0, 0)%Z
     = [("LST", 36.85)]
  /\ sample (precip (sum (@chirpsCol sample_engine (area 51.389 35.6892)))) (0, 0)%Z
     = [("Precip", 10)].
Proof.
  split; [| split].
  - transitivity [("NDVI", (median_values [3; 3] - median_values [1; 1])
                           / (median_values [3; 3] + median_values [1; 1]))];
      [reflexivity |].
    rewrite !median_values_pair. do 2 f_equal. lra.
  - transitivity [("LST", mean_values [15000; 16000] * 0.02 - 273.15)]; [reflexivity |].
    unfold mean_values, sum_values. cbn. do 2 f_equal. lra.
  - transitivity [("Precip", sum_values [4; 6])]; [reflexivity |].
    unfold sum_values. cbn. do 2 f_equal. lra.
Qed.

(** The whole chain on the sample backend: the five inputs of the risk
    index are 0.674, 1/2, 1/5, 1 and 1/15, and the index is 3383/15000. *)
Example sample_engine_fire_risk :
  let a := area 51.389 35.6892 in
  let ndvi := ndvi (median (@s2 sample_engine a)) in
  let lst := lst (mean (@lstCol sample_engine a)) in
  let precip := precip (sum (@chirpsCol sample_engine a)) in
  sample (fireRisk (lst_norm lst) (ndvi_norm ndvi) (slope_norm (@slope sample_engine a))
                   (aspect_south (@aspect sample_engine a)) (precip_norm precip)) (0, 0)%Z
  = [("Fire_Risk", 3383 / 15000)].
Proof.
  intros a nd ls pr.
  transitivity
    (sample
       (fireRisk
          [("LST", fun _ : Pixel =>
                     Rmin (Rmax ((mean_values [15000; 16000] * 0.02 - 273.15 - 20) / (45 - 20)) 0) 1)]
          [("NDVI", fun _ : Pixel =>
                      Rmin (Rmax (((median_values [3; 3] - median_values [1; 1])
                                   / (median_values [3; 3] + median_values [1; 1]) - 0)
                                  / (1 - 0)) 0) 1)]
          [("Slope", fun _ : Pixel => Rmin (Rmax ((12 - 0) / (60 - 0)) 0) 1)]
          [("Aspect_Score", fun _ : Pixel => cos ((180 - 180) * 3.1416 / 180))]
          [("Precip", fun _ : Pixel => Rmin (Rmax ((sum_values [4; 6] - 0) / (150 - 0)) 0) 1)])
       (0, 0)%Z); [reflexivity |].
  rewrite fireRisk_one_band, !median_values_pair.
  unfold mean_values, sum_values. cbn [fold_right List.length INR].
  replace ((180 - 180) * 3.1416 / 180) with 0 by lra. rewrite cos_0.
  rewrite !clamp_inside by lra.
  do 2 f_equal. lra.
Qed.

(* ===================================================================== *)
(** * Properties of the exports and of the retrieval                     *)
(* ===================================================================== *)

Lemma add_events_add (w : World) (a b : list Event) :
  add_events (add_events w a) b = add_events w (a ++ b).
Proof. unfold add_events. cbn. rewrite <- app_assoc. reflexivity. Qed.

Lemma add_events_nil (w : World) : add_events w [] = w.
Proof. destruct w. unfold add_events. cbn. rewrite app_nil_r. reflexivity. Qed.

Lemma emit_spec (e : Event) (w : World) : emit e w = (Returned tt, add_events w [e]).
Proof. reflexivity. Qed.

Lemma export_layer_spec (a : Geometry) (img : Image) (name : string) (w : World) :
  export_layer a img name w
  = (Returned tt,
     add_events w
       [Task_start {| image := img; description := name; folder := "EarthEnginefatemeh";
                      fileNamePrefix := name; region := bounds a; scale := 30;
                      maxPixels := 10000000000000 |};
        Stdout ("Export started: " +:+ name +:+ LF)]).
Proof.
  unfold export_layer, bind, print, print_end. rewrite !emit_spec, add_events_add.
  reflexivity.
Qed.

(** A run appends its calls to the trace and changes nothing else. *)
Lemma run_fire_risk_analysis_spec `{EarthEngine} `{Runtime} (longitude latitude : Q) (w : World) :
  run_fire_risk_analysis longitude latitude w
  = (Returned tt, add_events w (run_events longitude latitude)).
Proof.
  unfold run_events, run_fire_risk_analysis, bind, print, print_end.
  rewrite !emit_spec. cbv zeta.
  rewrite !export_layer_spec, !emit_spec, !add_events_add. reflexivity.
Qed.

(** The six jobs of a run, in the order they are started. *)
Lemma run_events_tasks `{EarthEngine} `{Runtime} (longitude latitude : Q) :
  started_tasks (run_events longitude latitude)
  = map (fun job : Image * string =>
           {| image := fst job;
              description := snd job +:+ "_" +:+ format_float latitude +:+ "_"
                             +:+ format_float longitude;
              folder := "EarthEnginefatemeh";
              fileNamePrefix := snd job +:+ "_" +:+ format_float latitude +:+ "_"
                                +:+ format_float longitude;
              region := bounds (buffer (Geometry_Point longitude latitude) 30000);
              scale := 30;
              maxPixels := 10000000000000 |})
        (let a := area longitude latitude in
         let ndvi := ndvi (median (s2 a)) in
         let lst := lst (mean (lstCol a)) in
         let precip := precip (sum (chirpsCol a)) in
         [(ndvi, "NDVI"); (lst, "LST"); (precip, "Precip"); (slope a, "Slope");
          (aspect_south (aspect a), "Aspect_Score");
          (fireRisk (lst_norm lst) (ndvi_norm ndvi) (slope_norm (slope a))
                    (aspect_south (aspect a)) (precip_norm precip), "Fire_Risk")])
    /\ sleeps (run_events longitude latitude) = []
    /\ Forall (fun e => is_drive_call e = false) (run_events longitude latitude).
Proof.
  unfold run_events, run_fire_risk_analysis, bind, print, print_end.
  rewrite !emit_spec. cbv zeta.
  rewrite !export_layer_spec, !emit_spec, !add_events_add.
  cbn [snd add_events trace app started_tasks sleeps flat_map is_drive_call map fst].
  repeat split.
  repeat constructor.
Qed.

Lemma started_tasks_app (a b : list Event) :
  started_tasks (a ++ b) = started_tasks a ++ started_tasks b.
Proof. apply flat_map_app. Qed.

Lemma sleeps_app (a b : list Event) : sleeps (a ++ b) = sleeps a ++ sleeps b.
Proof. apply flat_map_app. Qed.

Lemma downloads_app (a b : list Event) : downloads (a ++ b) = downloads a ++ downloads b.
Proof. apply flat_map_app. Qed.

(** C5.  A run starts exactly six export jobs, for NDVI, LST, Precip, Slope,
    Aspect_Score and Fire_Risk in this order; each is named
    [Name_latitude_longitude] from the texts of the two arguments
    themselves, goes to the folder [EarthEnginefatemeh], covers the bounding
    box of the 30000 m buffer around the point, and has scale 30. *)
Theorem six_exports :
  forall `{EarthEngine} `{Runtime} (longitude latitude : Q) (w : World),
    let a := buffer (Geometry_Point longitude latitude) 30000 in
    let job (img : Image) (name : string) :=
      {| image := img; description := name; folder := "EarthEnginefatemeh";
         fileNamePrefix := name; region := bounds a; scale := 30;
         maxPixels := 10000000000000 |} in
    let ndvi := ndvi (median (s2 a)) in
    let lst := lst (mean (lstCol a)) in
    let precip := precip (sum (chirpsCol a)) in
    fst (run_fire_risk_analysis longitude latitude w) = Returned tt
    /\ started_tasks (trace (snd (run_fire_risk_analysis longitude latitude w)))
       = started_tasks (trace w)
         ++ [job ndvi ("NDVI_" +:+ format_float latitude +:+ "_" +:+ format_float longitude);
             job lst ("LST_" +:+ format_float latitude +:+ "_" +:+ format_float longitude);
             job precip
               ("Precip_" +:+ format_float latitude +:+ "_" +:+ format_float longitude);
             job (slope a)
               ("Slope_" +:+ format_float latitude +:+ "_" +:+ format_float longitude);
             job (aspect_south (aspect a))
               ("Aspect_Score_" +:+ format_float latitude +:+ "_"
                +:+ format_float longitude);
             job (fireRisk (lst_norm lst) (ndvi_norm ndvi) (slope_norm (slope a))
                           (aspect_south (aspect a)) (precip_norm precip))
               ("Fire_Risk_" +:+ format_float latitude +:+ "_" +:+ format_float longitude)]
    /\ List.length (started_tasks (trace (snd (run_fire_risk_analysis longitude latitude w))))
       = (List.length (started_tasks (trace w)) + 6)%nat.
Proof.
  intros EE RT longitude latitude w a job nd ls pr.
  rewrite run_fire_risk_analysis_spec. cbn [fst snd add_events trace].
  rewrite started_tasks_app, (proj1 (run_events_tasks longitude latitude)).
  split; [reflexivity |]. split; [reflexivity |].
  rewrite length_app. reflexivity.
Qed.

(** A run for Tehran from an empty world, with the sample runtime: the six
    file names carry the latitude first. *)
Example tehran_export_names :
  map fileNamePrefix
      (started_tasks
         (trace (snd (@run_fire_risk_analysis sample_engine sample_runtime
                        51.389 35.6892 empty_world))))
  = ["NDVI_356892/10000_51389/1000"; "LST_356892/10000_51389/1000";
     "Precip_356892/10000_51389/1000"; "Slope_356892/10000_51389/1000";
     "Aspect_Score_356892/10000_51389/1000"; "Fire_Risk_356892/10000_51389/1000"].
Proof.
  rewrite run_fire_risk_analysis_spec. cbn [snd add_events trace empty_world app].
  rewrite (proj1 (run_events_tasks _ _)). cbn [map fileNamePrefix fst snd].
  vm_compute. reflexivity.
Qed.

(** The loop of lines 148-150 fetches the listing item by item. *)
Lemma download_loop_spec `{Runtime} (listing : list DriveFile) (w : World) :
  for_ listing (fun file =>
                  print ("Downloading " +:+ title file +:+ "...") ;;
                  file_GetContentFile file (os_path_join download_path (title file))) w
  = (Returned tt,
     {| trace := trace w
                 ++ flat_map (fun f => [Stdout (("Downloading " +:+ title f +:+ "...") +:+ LF);
                                        GetContentFile f (os_path_join download_path (title f))])
                             listing;
        dirs := dirs w;
        files := fetch_all listing (files w) |}).
Proof.
  revert w. induction listing as [| f listing IH]; intros w.
  - cbn. rewrite app_nil_r. destruct w; reflexivity.
  - cbn [for_]. unfold bind at 1. unfold bind at 1.
    unfold print, print_end. rewrite emit_spec. unfold file_GetContentFile.
    rewrite IH. cbn. rewrite <- !app_assoc. reflexivity.
Qed.

Lemma download_exports_from_drive_spec `{GoogleDrive} `{Runtime} (w : World) :
  download_exports_from_drive w
  = match GetList folder_query with
    | [] => (Raised "Folder 'EarthEnginefatemeh' not found in Drive",
             add_events w [LocalWebserverAuth; ListFile folder_query])
    | file0 :: _ =>
        let listing := GetList (children_query (id file0)) in
        (Returned tt,
         {| trace := trace w
                     ++ [LocalWebserverAuth; ListFile folder_query;
                         ListFile (children_query (id file0)); Makedirs "downloads"]
                     ++ flat_map
                          (fun f => [Stdout (("Downloading " +:+ title f +:+ "...") +:+ LF);
                                     GetContentFile f (os_path_join download_path (title f))])
                          listing
                     ++ [Stdout ("✅ All files downloaded." +:+ LF)];
            dirs := {["downloads"]} ∪ dirs w;
            files := fetch_all listing (files w) |})
    end.
Proof.
  unfold download_exports_from_drive.
  set (body := fun file : DriveFile => bind _ _).
  unfold drive_ListFile, bind, ret. rewrite !emit_spec.
  change ("title='" +:+ folder_name +:+
          "' and mimeType='application/vnd.google-apps.folder' and trashed=false")
    with folder_query.
  destruct (GetList folder_query) as [| file0 rest].
  - unfold raise. rewrite add_events_add. reflexivity.
  - cbv zeta. rewrite emit_spec. unfold os_makedirs.
    change ("'" +:+ id file0 +:+ "' in parents and trashed=false")
      with (children_query (id file0)).
    subst body. rewrite download_loop_spec. unfold print, print_end. rewrite emit_spec.
    unfold add_events. cbn [trace dirs files]. rewrite <- !app_assoc. reflexivity.
Qed.

Lemma fetch_all_app `{Runtime} (l1 l2 : list DriveFile) (fs : gmap string string) :
  fetch_all (l1 ++ l2) fs = fetch_all l2 (fetch_all l1 fs).
Proof. unfold fetch_all. apply fold_left_app. Qed.

Lemma fetch_all_lookup_other `{Runtime} (listing : list DriveFile) (fs : gmap string string)
      (k : string) :
  (forall g, In g listing -> os_path_join download_path (title g) <> k) ->
  fetch_all listing fs !! k = fs !! k.
Proof.
  revert fs. induction listing as [| f listing IH]; intros fs Hk; [reflexivity |].
  change (fetch_all (f :: listing) fs)
    with (fetch_all listing (<[os_path_join download_path (title f) := content f]> fs)).
  rewrite IH by (intros g Hg; apply Hk; right; exact Hg).
  apply lookup_insert_ne, Hk. left. reflexivity.
Qed.

Lemma fetch_all_lookup_last `{Runtime} (l1 l2 : list DriveFile) (f : DriveFile)
      (fs : gmap string string) :
  (forall g, In g l2 ->
             os_path_join download_path (title g) <> os_path_join download_path (title f)) ->
  fetch_all (l1 ++ f :: l2) fs !! os_path_join download_path (title f) = Some (content f).
Proof.
  intros Hlater. rewrite fetch_all_app.
  change (fetch_all (f :: l2) (fetch_all l1 fs))
    with (fetch_all l2 (<[os_path_join download_path (title f) := content f]>
                          (fetch_all l1 fs))).
  rewrite fetch_all_lookup_other by exact Hlater.
  apply lookup_insert_eq.
Qed.

Lemma downloads_of_loop `{Runtime} (listing : list DriveFile) :
  downloads
    (flat_map (fun f => [Stdout (("Downloading " +:+ title f +:+ "...") +:+ LF);
                         GetContentFile f (os_path_join download_path (title f))])
              listing)
  = map (fun f => (f, os_path_join download_path (title f))) listing.
Proof.
  induction listing as [| f listing IH]; [reflexivity |].
  cbn. f_equal. exact IH.
Qed.

(** The retrieval for any way of joining paths.  Without a folder of the
    well-known name in the listing, it raises and fetches nothing.  With
    one, it fetches every item of the listing of the first such folder once,
    in order and unfiltered, each to the path that [os.path.join] gives for
    the download directory and the item's own title; a fetched item replaces
    what the local path held, and paths that no item maps to keep their
    content. *)
Lemma download_fetches_listing :
  forall `{GoogleDrive} `{Runtime} (w : World),
    (GetList folder_query = [] ->
     fst (download_exports_from_drive w)
     = Raised "Folder 'EarthEnginefatemeh' not found in Drive"
     /\ downloads (trace (snd (download_exports_from_drive w))) = downloads (trace w)
     /\ files (snd (download_exports_from_drive w)) = files w
     /\ dirs (snd (download_exports_from_drive w)) = dirs w)
    /\ (forall (file0 : DriveFile) (rest : list DriveFile),
           GetList folder_query = file0 :: rest ->
           let listing := GetList (children_query (id file0)) in
           let w' := snd (download_exports_from_drive w) in
           fst (download_exports_from_drive w) = Returned tt
           /\ downloads (trace w')
              = downloads (trace w)
                ++ map (fun f => (f, os_path_join "downloads" (title f))) listing
           /\ files w' = fetch_all listing (files w)
           /\ (forall (l1 l2 : list DriveFile) (f : DriveFile),
                  listing = l1 ++ f :: l2 ->
                  (forall g, In g l2 ->
                             os_path_join "downloads" (title g)
                             <> os_path_join "downloads" (title f)) ->
                  files w' !! os_path_join "downloads" (title f) = Some (content f))
           /\ (forall k : string,
                  (forall g, In g listing -> os_path_join "downloads" (title g) <> k) ->
                  files w' !! k = files w !! k)
           /\ "downloads" ∈ dirs w').
Proof.
  intros GD RT w. split.
  - intros Hnone. rewrite download_exports_from_drive_spec, Hnone.
    cbn [fst snd add_events trace files dirs].
    rewrite downloads_app, app_nil_r. repeat split; reflexivity.
  - intros file0 rest Hsome listing w'. subst w'.
    rewrite download_exports_from_drive_spec, Hsome.
    cbv zeta. cbn [fst snd trace files dirs]. fold listing.
    split; [reflexivity |].
    split.
    { rewrite !downloads_app, downloads_of_loop. cbn. rewrite app_nil_r. reflexivity. }
    split; [reflexivity |].
    split.
    { intros l1 l2 f -> Hlater. apply fetch_all_lookup_last, Hlater. }
    split.
    { intros k Hk. apply fetch_all_lookup_other, Hk. }
    apply elem_of_union_l, elem_of_singleton. reflexivity.
Qed.

Example sample_drive_retrieval :
  fst (@download_exports_from_drive empty_drive sample_runtime empty_world)
  = Raised "Folder 'EarthEnginefatemeh' not found in Drive"
  /\ downloads (trace (snd (@download_exports_from_drive sample_drive sample_runtime
                              empty_world)))
     = [(sample_file_1, "downloads/NDVI_35.6892_51.389.tif");
        (sample_file_2, "downloads/Fire_Risk_35.6892_51.389.tif")]
  /\ files (snd (@download_exports_from_drive sample_drive sample_runtime empty_world))
       !! "downloads/Fire_Risk_35.6892_51.389.tif"
     = Some "risk-bytes".
Proof.
  split; [| split].
  - apply (proj1 (@download_fetches_listing empty_drive sample_runtime empty_world)).
    reflexivity.
  - destruct (proj2 (@download_fetches_listing sample_drive sample_runtime empty_world)
                sample_folder [] eq_refl) as (_ & Hd & _).
    exact Hd.
  - destruct (proj2 (@download_fetches_listing sample_drive sample_runtime empty_world)
                sample_folder [] eq_refl) as (_ & _ & _ & Hlast & _).
    apply (Hlast [sample_file_1] [] sample_file_2); [reflexivity |].
    intros g [].
Qed.





(* ===================================================================== *)
(** * Properties of the map GUI                                          *)
(* ===================================================================== *)

Lemma int_inject_Z (q : Q) (z : Z) : (q == inject_Z z)%Q -> int q = z.
Proof.
  unfold Qeq, int. cbn [Qnum Qden inject_Z]. intros Heq.
  rewrite Z.mul_1_r in Heq. rewrite Heq.
  apply Z.quot_mul. discriminate.
Qed.

(** C9.  In exact rational arithmetic [geo_to_pixel] undoes [pixel_to_geo]
    at every integer pixel position, with the map bounds 25..39 and 44..63
    and the canvas of 800 by 1000. *)
Theorem geo_to_pixel_pixel_to_geo :
  forall x y : Z,
    geo_to_pixel (fst (pixel_to_geo x y)) (snd (pixel_to_geo x y)) = (x, y)
    /\ (MIN_LAT, MAX_LAT, MIN_LON, MAX_LON) = (25, 39, 44, 63)%Q
    /\ (WIDTH, HEIGHT) = (800, 1000)%Q.
Proof.
  intros x y. split; [| split; reflexivity].
  unfold geo_to_pixel, pixel_to_geo. cbn [fst snd]. f_equal.
  - apply int_inject_Z.
    unfold MIN_LON, MAX_LON, WIDTH. field.
  - apply int_inject_Z.
    unfold MIN_LAT, MAX_LAT, HEIGHT. field.
Qed.

Example geo_to_pixel_tehran : geo_to_pixel 35.6892 51.3890 = (311, 236)%Z.
Proof. vm_compute. reflexivity. Qed.

Example pixel_to_geo_round_trip_311_236 :
  geo_to_pixel (fst (pixel_to_geo 311 236)) (snd (pixel_to_geo 311 236)) = (311, 236)%Z.
Proof. vm_compute. reflexivity. Qed.

Example pixel_to_geo_round_trip_negative :
  geo_to_pixel (fst (pixel_to_geo (-7) 1003)) (snd (pixel_to_geo (-7) 1003)) = (-7, 1003)%Z.
Proof. vm_compute. reflexivity. Qed.

(** The state of the loop after a list of provinces. *)
Lemma nearest_fold (lat lon : Q) (l : list Province) :
  match fold_left (nearest_step lat lon) l (None, inf) with
  | (None, inf) => l = []
  | (Some prov, finite d) =>
      d = distance_to lat lon prov
      /\ exists i : nat,
          nth_error l i = Some prov
          /\ (forall q, In q l -> d <= distance_to lat lon q)
          /\ (forall j q, (j < i)%nat -> nth_error l j = Some q -> d < distance_to lat lon q)
  | _ => False
  end.
Proof.
  induction l as [| x l IH] using rev_ind; [reflexivity |].
  rewrite fold_left_app. cbn [fold_left].
  destruct (fold_left (nearest_step lat lon) l (None, inf)) as [[p |] [d |]];
    try contradiction.
  - destruct IH as (Hd & i & Hi & Hmin & Hfirst).
    assert (Hlen : (i < List.length l)%nat) by (apply nth_error_Some; congruence).
    destruct x as [[name plat] plon]. unfold nearest_step. cbn [snd dist_lt].
    change (hypot (lat - plat) (lon - plon)) with (distance_to lat lon (name, plat, plon)).
    destruct (Rlt_dec (distance_to lat lon (name, plat, plon)) d) as [Hlt | Hge].
    + split; [reflexivity |]. exists (List.length l).
      split; [rewrite nth_error_app2, Nat.sub_diag by lia; reflexivity |].
      split.
      * intros q Hq. apply in_app_or in Hq as [Hq | [<- | []]]; [| lra].
        specialize (Hmin q Hq). lra.
      * intros j q Hj Hq. rewrite nth_error_app1 in Hq by exact Hj.
        apply nth_error_In in Hq. specialize (Hmin q Hq). lra.
    + split; [exact Hd |]. exists i.
      split; [rewrite nth_error_app1 by exact Hlen; exact Hi |].
      split.
      * intros q Hq. apply in_app_or in Hq as [Hq | [<- | []]]; [apply Hmin, Hq | lra].
      * intros j q Hj Hq. rewrite nth_error_app1 in Hq by lia. apply (Hfirst j q Hj Hq).
  - subst l. destruct x as [[name plat] plon]. unfold nearest_step. cbn [snd dist_lt app].
    change (hypot (lat - plat) (lon - plon)) with (distance_to lat lon (name, plat, plon)).
    split; [reflexivity |]. exists 0%nat.
    split; [reflexivity |].
    split.
    + intros q [<- | []]. lra.
    + intros j q Hj. lia.
Qed.

Lemma PROVINCES_length : List.length PROVINCES = 30%nat.
Proof. reflexivity. Qed.

Lemma nearest_province_spec (lat lon : Q) (l : list Province) :
  l <> [] ->
  exists (prov : Province) (i : nat),
    nearest_province l lat lon = Some prov
    /\ nth_error l i = Some prov
    /\ (forall q, In q l -> distance_to lat lon prov <= distance_to lat lon q)
    /\ (forall j q, (j < i)%nat -> nth_error l j = Some q ->
                    distance_to lat lon prov < distance_to lat lon q).
Proof.
  intros Hne. unfold nearest_province.
  pose proof (nearest_fold lat lon l) as Hfold.
  destruct (fold_left (nearest_step lat lon) l (None, inf)) as [[p |] [d |]];
    try contradiction.
  destruct Hfold as (-> & i & Hi & Hmin & Hfirst).
  exists p, i. cbn [fst]. auto.
Qed.

Lemma for_emits {A : Type} (evs : A -> list Event) (body : A -> Py unit) (l : list A) :
  (forall x w, body x w = (Returned tt, add_events w (evs x))) ->
  forall w, for_ l body w = (Returned tt, add_events w (flat_map evs l)).
Proof.
  intros Hbody. induction l as [| x l IH]; intros w.
  - cbn. rewrite add_events_nil. reflexivity.
  - cbn [for_ flat_map]. unfold bind. rewrite Hbody, IH, add_events_add. reflexivity.
Qed.

Lemma range_60_0 : List.length (range 60 0 (-1)) = 60%nat /\ hd 0%Z (range 60 0 (-1)) = 60%Z
                   /\ List.last (range 60 0 (-1)) 0%Z = 1%Z.
Proof. vm_compute. repeat split. Qed.

Lemma wait_events_sleeps :
  sleeps wait_events = repeat 1%Z 60
  /\ started_tasks wait_events = []
  /\ forallb (fun e => negb (is_drive_call e)) wait_events = true.
Proof. vm_compute. repeat split. Qed.

(** The click handler, step by step: the province found, then the run for
    its coordinates, then the waiting loop, then the retrieval. *)
Lemma on_map_click_spec `{EarthEngine} `{GoogleDrive} `{Runtime} (event : ClickEvent) (w : World) :
  exists (name : string) (plat plon : Q),
    nearest_province PROVINCES (fst (pixel_to_geo (event_x event) (event_y event)))
                     (snd (pixel_to_geo (event_x event) (event_y event)))
    = Some (name, plat, plon)
    /\ on_map_click event w
       = download_exports_from_drive
           (add_events w
              ([Stdout (("You clicked near: " +:+ name +:+ " (lat: " +:+ format_float plat
                         +:+ ", lon: " +:+ format_float plon +:+ ")") +:+ LF)]
               ++ run_events plon plat ++ wait_events)).
Proof.
  unfold on_map_click.
  destruct (pixel_to_geo (event_x event) (event_y event)) as [lat lon]. cbn [fst snd].
  destruct (nearest_province_spec lat lon PROVINCES) as (prov & i & Hsel & _);
    [discriminate |].
  rewrite Hsel. destruct prov as [[name plat] plon].
  exists name, plat, plon. split; [reflexivity |].
  unfold bind at 1. unfold print at 1, print_end at 1. rewrite emit_spec.
  unfold bind at 1. rewrite run_fire_risk_analysis_spec.
  unfold bind at 1. unfold print at 1, print_end at 1. rewrite emit_spec.
  unfold bind at 1.
  rewrite (for_emits (fun remaining : Z =>
                        [Stdout ((CR +:+ "Time remaining: " +:+ pretty remaining +:+ " seconds")
                                 +:+ EmptyString);
                         Time_sleep 1])).
  2: { intros x w0. unfold bind, print_end, time_sleep. rewrite !emit_spec, add_events_add.
       reflexivity. }
  unfold bind at 1. unfold print at 1, print_end at 1. rewrite emit_spec.
  rewrite !add_events_add. unfold wait_events. reflexivity.
Qed.

Lemma download_trace `{GoogleDrive} `{Runtime} (w : World) :
  exists rest : list Event,
    trace (snd (download_exports_from_drive w)) = trace w ++ LocalWebserverAuth :: rest
    /\ started_tasks rest = []
    /\ sleeps rest = [].
Proof.
  rewrite download_exports_from_drive_spec.
  destruct (GetList folder_query) as [| file0 others].
  - exists [ListFile folder_query]. repeat split.
  - eexists. cbv zeta. cbn [snd trace]. split; [reflexivity |].
    set (listing := GetList (children_query (id file0))).
    cbn [app started_tasks sleeps flat_map].
    rewrite !flat_map_app.
    split.
    + induction listing as [| f listing IH]; [reflexivity | exact IH].
    + induction listing as [| f listing IH]; [reflexivity | exact IH].
Qed.

(** C8.  The calls of a click come in three consecutive parts: first the
    run, which starts the six export jobs and neither sleeps nor touches the
    storage backend; then the waiting loop, sixty blocking sleeps of one
    second each, with no job started and no storage call; only then the
    retrieval, which begins with the authentication and contains no job
    start and no sleep.  The retrieval is the download step itself, started
    in the world that the first two parts leave. *)
Theorem retrieval_after_exports_and_wait :
  forall `{EarthEngine} `{GoogleDrive} `{Runtime} (event : ClickEvent) (w : World),
  exists (dispatch wait retrieval : list Event) (w_mid : World),
    trace (snd (on_map_click event w)) = trace w ++ dispatch ++ wait ++ retrieval
    /\ on_map_click event w = download_exports_from_drive w_mid
    /\ trace w_mid = trace w ++ dispatch ++ wait
    /\ (List.length (started_tasks dispatch) = 6%nat
        /\ sleeps dispatch = []
        /\ Forall (fun e => is_drive_call e = false) dispatch)
    /\ (started_tasks wait = []
        /\ sleeps wait = repeat 1%Z 60
        /\ fold_right Z.add 0%Z (sleeps wait) = 60%Z
        /\ Forall (fun e => is_drive_call e = false) wait)
    /\ ((exists rest, retrieval = LocalWebserverAuth :: rest)
        /\ started_tasks retrieval = []
        /\ sleeps retrieval = []).
Proof.
  intros EE GD RT event w.
  destruct (on_map_click_spec event w) as (name & plat & plon & _ & Hclick).
  set (hello := Stdout (("You clicked near: " +:+ name +:+ " (lat: " +:+ format_float plat
                         +:+ ", lon: " +:+ format_float plon +:+ ")") +:+ LF)) in Hclick.
  set (w_mid := add_events w ([hello] ++ run_events plon plat ++ wait_events)) in Hclick.
  destruct (download_trace w_mid) as (rest & Htrace & Hrt & Hrs).
  destruct (run_events_tasks plon plat) as (Htasks & Hsl & Hnd).
  destruct wait_events_sleeps as (Hws & Hwt & Hwd).
  exists ([hello] ++ run_events plon plat), wait_events, (LocalWebserverAuth :: rest), w_mid.
  split.
  { rewrite Hclick, Htrace. unfold w_mid. cbn [add_events trace].
    rewrite <- !app_assoc. reflexivity. }
  split; [exact Hclick |].
  split; [unfold w_mid; cbn [add_events trace]; rewrite <- !app_assoc; reflexivity |].
  split.
  { rewrite started_tasks_app, sleeps_app, Htasks, Hsl.
    split; [reflexivity |]. split; [reflexivity |].
    apply Forall_app. split; [repeat constructor | exact Hnd]. }
  split.
  { split; [exact Hwt |]. split; [exact Hws |]. rewrite Hws.
    split; [reflexivity |].
    apply List.Forall_forall. intros e He.
    rewrite forallb_forall in Hwd. specialize (Hwd e He).
    destruct (is_drive_call e); [discriminate | reflexivity]. }
  split; [exists rest; reflexivity |].
  split; [exact Hrt | exact Hrs].
Qed.

Lemma started_tasks_of_click `{EarthEngine} `{GoogleDrive} `{Runtime}
      (event : ClickEvent) (w : World) (name : string) (plat plon : Q) :
  on_map_click event w
  = download_exports_from_drive
      (add_events w
         ([Stdout (("You clicked near: " +:+ name +:+ " (lat: " +:+ format_float plat
                    +:+ ", lon: " +:+ format_float plon +:+ ")") +:+ LF)]
          ++ run_events plon plat ++ wait_events)) ->
  map region (started_tasks (trace (snd (on_map_click event w))))
  = map region (started_tasks (trace w))
    ++ repeat (bounds (buffer (Geometry_Point plon plat) 30000)) 6.
Proof.
  intros ->.
  match goal with
  | |- context [download_exports_from_drive ?w0] =>
      destruct (download_trace w0) as (rest & -> & Hrt & _)
  end.
  cbn [add_events trace].
  rewrite !started_tasks_app. cbn [started_tasks flat_map app].
  fold (started_tasks rest). rewrite Hrt, app_nil_r.
  rewrite (proj1 (run_events_tasks plon plat)).
  rewrite (proj1 (proj2 wait_events_sleeps)), app_nil_r, map_app.
  reflexivity.
Qed.

(** C10.  For every click the loop ends with a province of the list of
    thirty; no province of the list is nearer to the clicked point, in the
    distance [hypot] of the differences of latitude and longitude; every
    province earlier in the list is strictly farther, so of several nearest
    ones the first is taken; and the six export jobs of the click are for
    the region around that province. *)
Theorem click_selects_nearest_province :
  forall `{EarthEngine} `{GoogleDrive} `{Runtime} (event : ClickEvent) (w : World),
    let lat := fst (pixel_to_geo (event_x event) (event_y event)) in
    let lon := snd (pixel_to_geo (event_x event) (event_y event)) in
    List.length PROVINCES = 30%nat
    /\ exists (prov : Province) (i : nat),
        nearest_province PROVINCES lat lon = Some prov
        /\ nth_error PROVINCES i = Some prov
        /\ (forall q, In q PROVINCES -> distance_to lat lon prov <= distance_to lat lon q)
        /\ (forall j q, (j < i)%nat -> nth_error PROVINCES j = Some q ->
                        distance_to lat lon prov < distance_to lat lon q)
        /\ map region (started_tasks (trace (snd (on_map_click event w))))
           = map region (started_tasks (trace w))
             ++ repeat (bounds (buffer (Geometry_Point (snd prov) (snd (fst prov))) 30000)) 6.
Proof.
  intros EE GD RT event w lat lon.
  split; [reflexivity |].
  destruct (nearest_province_spec lat lon PROVINCES) as (prov & i & Hsel & Hi & Hmin & Hfirst);
    [discriminate |].
  exists prov, i.
  repeat (split; [assumption |]).
  destruct (on_map_click_spec event w) as (name & plat & plon & Hsel' & Hclick).
  fold lat lon in Hsel'. rewrite Hsel in Hsel'. injection Hsel' as ->.
  cbn [fst snd]. apply (started_tasks_of_click event w name plat plon Hclick).
Qed.

(** ** The same loop on squared distances                                *)

Lemma hypot_sqrt (a b : Q) : hypot a b = sqrt (Q2R (a * a + b * b)).
Proof. unfold hypot. rewrite Q2R_plus, !Q2R_mult. reflexivity. Qed.

Lemma distance_to_sqrt (lat lon : Q) (prov : Province) :
  distance_to lat lon prov = sqrt (Q2R (distance2_to lat lon prov)).
Proof. apply hypot_sqrt. Qed.

Lemma distance2_to_nonneg (lat lon : Q) (prov : Province) :
  0 <= Q2R (distance2_to lat lon prov).
Proof.
  unfold distance2_to. rewrite Q2R_plus, !Q2R_mult.
  apply Rplus_le_le_0_compat; apply Rle_0_sqr.
Qed.

Lemma nearest_step_same (lat lon : Q) (st : option Province * Dist)
      (st2 : option Province * option Q) (prov : Province) :
  same_state lat lon st st2 ->
  same_state lat lon (nearest_step lat lon st prov) (nearest_step2 lat lon st2 prov).
Proof.
  destruct st as [n d], st2 as [n2 m]. unfold same_state. cbn [fst snd].
  intros [-> Hd]. destruct prov as [[name plat] plon].
  unfold nearest_step, nearest_step2. cbn [snd].
  change (hypot (lat - plat) (lon - plon)) with (distance_to lat lon (name, plat, plon)).
  pose proof (distance2_to_nonneg lat lon (name, plat, plon)) as Hpos.
  destruct d as [d |], m as [m |]; try contradiction.
  - destruct Hd as [-> Hm]. cbn [dist_lt].
    destruct (Rlt_dec (distance_to lat lon (name, plat, plon)) (sqrt (Q2R m))) as [Hlt | Hge].
    + rewrite distance_to_sqrt in Hlt. apply sqrt_lt_0 in Hlt; [| assumption | assumption].
      apply Rlt_Qlt in Hlt.
      destruct (Qle_bool m (distance2_to lat lon (name, plat, plon))) eqn:Hle.
      * apply Qle_bool_iff in Hle. exfalso. exact (Qlt_not_le _ _ Hlt Hle).
      * cbn. split; [reflexivity |]. split; [apply distance_to_sqrt | exact Hpos].
    + destruct (Qle_bool m (distance2_to lat lon (name, plat, plon))) eqn:Hle.
      * cbn. auto.
      * exfalso. apply Hge. rewrite distance_to_sqrt.
        apply sqrt_lt_1; [assumption | assumption |].
        apply Qlt_Rlt, Qnot_le_lt. intros Habs. apply Qle_bool_iff in Habs. congruence.
  - cbn. split; [reflexivity |]. split; [apply distance_to_sqrt | exact Hpos].
Qed.

Lemma nearest_province_evaluates (provinces : list Province) (lat lon : Q) :
  nearest_province provinces lat lon = nearest_province2 provinces lat lon.
Proof.
  unfold nearest_province, nearest_province2.
  assert (Hfold : forall l st st2,
             same_state lat lon st st2 ->
             same_state lat lon (fold_left (nearest_step lat lon) l st)
                        (fold_left (nearest_step2 lat lon) l st2)).
  { induction l as [| x l IH]; intros st st2 Hst; [exact Hst |].
    cbn [fold_left]. apply IH, nearest_step_same, Hst. }
  apply (Hfold provinces (None, inf) (None, None)). split; [reflexivity | exact I].
Qed.

(** A click on the label of Tehran selects Tehran; a click in the far
    south-east corner selects Sistan and Baluchestan. *)
Example click_on_tehran :
  nearest_province PROVINCES (fst (pixel_to_geo 311 236)) (snd (pixel_to_geo 311 236))
  = Some ("Tehran", 35.6892, 51.3890)%Q.
Proof. rewrite nearest_province_evaluates. vm_compute. reflexivity. Qed.

Example click_in_south_east_corner :
  nearest_province PROVINCES (fst (pixel_to_geo 799 999)) (snd (pixel_to_geo 799 999))
  = Some ("Sistan and Baluchestan", 29.4900, 60.8500)%Q.
Proof. rewrite nearest_province_evaluates. vm_compute. reflexivity. Qed.

(** Two places at the same distance: the earlier one is kept. *)
Example tie_keeps_the_first :
  nearest_province [("A", 0, 1); ("B", 0, -1); ("C", 1, 0)]%Q 0 0 = Some ("A", 0, 1)%Q.
Proof. rewrite nearest_province_evaluates. vm_compute. reflexivity. Qed.

Lemma click_selects_nearest_province_witness :
  exists prov : Province,
    nearest_province PROVINCES (fst (pixel_to_geo 311 236)) (snd (pixel_to_geo 311 236))
    = Some prov
    /\ distance_to (fst (pixel_to_geo 311 236)) (snd (pixel_to_geo 311 236)) prov
       <= distance_to (fst (pixel_to_geo 311 236)) (snd (pixel_to_geo 311 236))
                      ("Alborz", 35.8400, 50.9400)%Q.
Proof.
  destruct (@click_selects_nearest_province sample_engine sample_drive sample_runtime
              {| event_x := 311; event_y := 236 |} empty_world)
    as (_ & prov & i & Hsel & _ & Hmin & _).
  exists prov. split; [exact Hsel |].
  apply Hmin. unfold PROVINCES. do 15 right. left. reflexivity.
Defined.

(* ===================================================================== *)
(** * Further properties: the map conversions                            *)
(* ===================================================================== *)

#[local] Close Scope R_scope.

Lemma int_floor (q : Q) : (0 <= q)%Q -> int q = Qround.Qfloor q.
Proof.
  destruct q as [n d]. unfold Qle, int, Qround.Qfloor. cbn [Qnum Qden].
  intros Hq. apply Z.quot_div_nonneg; lia.
Qed.

Lemma int_ceiling (q : Q) : (q <= 0)%Q -> int q = Qround.Qceiling q.
Proof.
  destruct q as [n d]. unfold Qle, int, Qround.Qceiling, Qround.Qfloor. cbn [Qnum Qden Qopp].
  intros Hq.
  rewrite <- (Z.opp_involutive n) at 1.
  rewrite Z.quot_opp_l by discriminate.
  f_equal. apply Z.quot_div_nonneg; lia.
Qed.

(** [int] cuts off the fraction: towards zero from either side. *)
Lemma int_nonneg_bounds (q : Q) :
  (0 <= q)%Q -> (inject_Z (int q) <= q)%Q /\ (q < inject_Z (int q) + 1)%Q /\ (0 <= int q)%Z.
Proof.
  intros Hq. rewrite (int_floor q Hq).
  split; [apply Qround.Qfloor_le |]. split.
  - rewrite <- (inject_Z_plus _ 1). apply Qround.Qlt_floor.
  - change 0%Z with (Qround.Qfloor 0). apply Qround.Qfloor_resp_le, Hq.
Qed.

Lemma int_nonpos_bounds (q : Q) :
  (q <= 0)%Q -> (q <= inject_Z (int q))%Q /\ (inject_Z (int q) - 1 < q)%Q /\ (int q <= 0)%Z.
Proof.
  intros Hq. rewrite (int_ceiling q Hq).
  split; [apply Qround.Qle_ceiling |]. split.
  - pose proof (Qround.Qceiling_lt q) as Hlt.
    unfold Z.sub in Hlt. rewrite inject_Z_plus in Hlt. exact Hlt.
  - change 0%Z with (Qround.Qceiling 0). apply Qround.Qceiling_resp_le, Hq.
Qed.

Lemma int_monotone (q1 q2 : Q) : (q1 <= q2)%Q -> (int q1 <= int q2)%Z.
Proof.
  intros Hle.
  destruct (Qlt_le_dec q1 0) as [H1 | H1]; destruct (Qlt_le_dec q2 0) as [H2 | H2].
  - rewrite !int_ceiling by (apply Qlt_le_weak; assumption).
    apply Qround.Qceiling_resp_le, Hle.
  - destruct (int_nonpos_bounds q1 (Qlt_le_weak _ _ H1)) as (_ & _ & Ha).
    destruct (int_nonneg_bounds q2 H2) as (_ & _ & Hb). lia.
  - exfalso. apply (Qlt_irrefl 0). apply Qle_lt_trans with q1; [exact H1 |].
    apply Qle_lt_trans with q2; assumption.
  - rewrite !int_floor by assumption. apply Qround.Qfloor_resp_le, Hle.
Qed.

Lemma int_small (q : Q) : (-1 < q)%Q -> (q < 1)%Q -> int q = 0%Z.
Proof.
  intros Hlo Hhi.
  destruct (Qlt_le_dec q 0) as [Hneg | Hpos].
  - destruct (int_nonpos_bounds q (Qlt_le_weak _ _ Hneg)) as (Ha & _ & Hc).
    assert (Hlt : (-1 < inject_Z (int q))%Q) by (apply Qlt_le_trans with q; assumption).
    assert (Hz : (-1 < int q)%Z) by (rewrite Zlt_Qlt; exact Hlt). lia.
  - destruct (int_nonneg_bounds q Hpos) as (Ha & _ & Hc).
    assert (Hlt : (inject_Z (int q) < 1)%Q) by (apply Qle_lt_trans with q; assumption).
    assert (Hz : (int q < 1)%Z) by (rewrite Zlt_Qlt; exact Hlt). lia.
Qed.

Lemma pixel_x_linear (lon : Q) :
  ((lon - MIN_LON) / (MAX_LON - MIN_LON) * WIDTH == (lon - 44) * (800 # 19))%Q.
Proof. unfold MIN_LON, MAX_LON, WIDTH. field. Qed.

Lemma pixel_y_linear (lat : Q) :
  ((MAX_LAT - lat) / (MAX_LAT - MIN_LAT) * HEIGHT == (39 - lat) * (500 # 7))%Q.
Proof. unfold MIN_LAT, MAX_LAT, HEIGHT. field. Qed.

(** X1.  A point inside the map bounds is drawn on the canvas: its column
    is between 0 and 800 and its row between 0 and 1000; the east and the
    south edge of the map land on column 800 and row 1000, every other
    point strictly before them. *)
Theorem geo_to_pixel_on_canvas :
  forall lat lon : Q,
    (MIN_LAT <= lat <= MAX_LAT)%Q -> (MIN_LON <= lon <= MAX_LON)%Q ->
    (0 <= fst (geo_to_pixel lat lon) <= 800)%Z
    /\ (0 <= snd (geo_to_pixel lat lon) <= 1000)%Z
    /\ ((lon < MAX_LON)%Q -> (fst (geo_to_pixel lat lon) < 800)%Z)
    /\ ((MIN_LAT < lat)%Q -> (snd (geo_to_pixel lat lon) < 1000)%Z)
    /\ fst (geo_to_pixel lat MAX_LON) = 800%Z
    /\ snd (geo_to_pixel MIN_LAT lon) = 1000%Z.
Proof.
  unfold MIN_LAT, MAX_LAT, MIN_LON, MAX_LON. intros lat lon [Hlat1 Hlat2] [Hlon1 Hlon2].
  unfold geo_to_pixel. cbn [fst snd].
  assert (Hx : (0 <= (lon - MIN_LON) / (MAX_LON - MIN_LON) * WIDTH)%Q)
    by (rewrite pixel_x_linear; Lqa.lra).
  assert (Hy : (0 <= (MAX_LAT - lat) / (MAX_LAT - MIN_LAT) * HEIGHT)%Q)
    by (rewrite pixel_y_linear; Lqa.lra).
  destruct (int_nonneg_bounds _ Hx) as (Hx1 & _ & Hx0).
  destruct (int_nonneg_bounds _ Hy) as (Hy1 & _ & Hy0).
  set (x := int ((lon - MIN_LON) / (MAX_LON - MIN_LON) * WIDTH)) in *.
  set (y := int ((MAX_LAT - lat) / (MAX_LAT - MIN_LAT) * HEIGHT)) in *.
  rewrite pixel_x_linear in Hx1. rewrite pixel_y_linear in Hy1.
  split; [split; [exact Hx0 |] |]; [| split; [split; [exact Hy0 |] |]; [| split; [| split]]].
  - rewrite Zle_Qle. change (inject_Z 800) with 800%Q. Lqa.lra.
  - rewrite Zle_Qle. change (inject_Z 1000) with 1000%Q. Lqa.lra.
  - intros Hlt. rewrite Zlt_Qlt. change (inject_Z 800) with 800%Q. Lqa.lra.
  - intros Hlt. rewrite Zlt_Qlt. change (inject_Z 1000) with 1000%Q. Lqa.lra.
  - split; [| apply int_inject_Z; unfold MIN_LAT, MAX_LAT, HEIGHT; field].
    apply int_inject_Z. unfold MIN_LON, MAX_LON, WIDTH. field.
Qed.

Lemma geo_to_pixel_on_canvas_witness :
  (0 <= fst (geo_to_pixel 35.6892 51.389) <= 800)%Z
  /\ (fst (geo_to_pixel 35.6892 51.389) < 800)%Z
  /\ (snd (geo_to_pixel 35.6892 51.389) < 1000)%Z.
Proof.
  destruct (geo_to_pixel_on_canvas 35.6892 51.389) as (Hx & _ & Hxs & Hys & _).
  - split; unfold Qle, MIN_LAT, MAX_LAT; simpl; lia.
  - split; unfold Qle, MIN_LON, MAX_LON; simpl; lia.
  - split; [exact Hx |].
    split; [apply Hxs | apply Hys]; unfold Qlt, MIN_LAT, MAX_LON; simpl; lia.
Defined.

(** X2.  A pixel of the canvas stands for a point inside the map bounds;
    the top left pixel is the north-west corner (39, 44) and the pixel
    (800, 1000) the south-east corner (25, 63). *)
Theorem pixel_to_geo_in_bounds :
  forall x y : Z,
    (0 <= x <= 800)%Z -> (0 <= y <= 1000)%Z ->
    (MIN_LAT <= fst (pixel_to_geo x y) <= MAX_LAT)%Q
    /\ (MIN_LON <= snd (pixel_to_geo x y) <= MAX_LON)%Q
    /\ (fst (pixel_to_geo 0 0) == MAX_LAT)%Q /\ (snd (pixel_to_geo 0 0) == MIN_LON)%Q
    /\ (fst (pixel_to_geo 800 1000) == MIN_LAT)%Q
    /\ (snd (pixel_to_geo 800 1000) == MAX_LON)%Q.
Proof.
  intros x y [Hx0 Hx1] [Hy0 Hy1].
  rewrite Zle_Qle in Hx0, Hx1, Hy0, Hy1.
  change (inject_Z 0) with 0%Q in *. change (inject_Z 800) with 800%Q in *.
  change (inject_Z 1000) with 1000%Q in *.
  unfold pixel_to_geo. cbn [fst snd].
  assert (Hlon : (inject_Z x / WIDTH * (MAX_LON - MIN_LON) + MIN_LON
                  == inject_Z x * (19 # 800) + 44)%Q)
    by (unfold MIN_LON, MAX_LON, WIDTH; field).
  assert (Hlat : (MAX_LAT - inject_Z y / HEIGHT * (MAX_LAT - MIN_LAT)
                  == 39 - inject_Z y * (7 # 500))%Q)
    by (unfold MIN_LAT, MAX_LAT, HEIGHT; field).
  rewrite Hlon, Hlat. unfold MIN_LAT, MAX_LAT, MIN_LON, MAX_LON.
  repeat split; try Lqa.lra; reflexivity.
Qed.

Lemma pixel_to_geo_in_bounds_witness :
  (MIN_LAT <= fst (pixel_to_geo 311 236) <= MAX_LAT)%Q
  /\ (MIN_LON <= snd (pixel_to_geo 311 236) <= MAX_LON)%Q.
Proof.
  destruct (pixel_to_geo_in_bounds 311 236) as (Hlat & Hlon & _); [lia | lia |].
  split; assumption.
Defined.

(** X4.  On the canvas east is to the right and north is up: a pixel
    further right stands for a larger longitude and a pixel further down
    for a smaller latitude; a point further east is never drawn further
    left, and a point further north is never drawn further down. *)
Theorem map_orientation :
  forall (x1 x2 y1 y2 : Z) (lat1 lat2 lon1 lon2 : Q),
    ((x1 < x2)%Z -> (snd (pixel_to_geo x1 y1) < snd (pixel_to_geo x2 y2))%Q)
    /\ ((y1 < y2)%Z -> (fst (pixel_to_geo x2 y2) < fst (pixel_to_geo x1 y1))%Q)
    /\ ((lon1 <= lon2)%Q ->
        (fst (geo_to_pixel lat1 lon1) <= fst (geo_to_pixel lat2 lon2))%Z)
    /\ ((lat1 <= lat2)%Q ->
        (snd (geo_to_pixel lat2 lon2) <= snd (geo_to_pixel lat1 lon1))%Z).
Proof.
  intros x1 x2 y1 y2 lat1 lat2 lon1 lon2.
  assert (Hlon : forall z : Z, (inject_Z z / WIDTH * (MAX_LON - MIN_LON) + MIN_LON
                                == inject_Z z * (19 # 800) + 44)%Q)
    by (intros z; unfold MIN_LON, MAX_LON, WIDTH; field).
  assert (Hlat : forall z : Z, (MAX_LAT - inject_Z z / HEIGHT * (MAX_LAT - MIN_LAT)
                                == 39 - inject_Z z * (7 # 500))%Q)
    by (intros z; unfold MIN_LAT, MAX_LAT, HEIGHT; field).
  unfold pixel_to_geo, geo_to_pixel. cbn [fst snd].
  split; [| split; [| split]].
  - intros Hx. rewrite Zlt_Qlt in Hx. rewrite !Hlon. Lqa.lra.
  - intros Hy. rewrite Zlt_Qlt in Hy. rewrite !Hlat. Lqa.lra.
  - intros Hle. apply int_monotone. rewrite !pixel_x_linear. Lqa.lra.
  - intros Hle. apply int_monotone. rewrite !pixel_y_linear. Lqa.lra.
Qed.

Lemma map_orientation_witness :
  (snd (pixel_to_geo 10 20) < snd (pixel_to_geo 11 20))%Q
  /\ (fst (pixel_to_geo 10 21) < fst (pixel_to_geo 10 20))%Q
  /\ (fst (geo_to_pixel 30 50) <= fst (geo_to_pixel 30 51))%Z
  /\ (snd (geo_to_pixel 31 50) <= snd (geo_to_pixel 30 50))%Z.
Proof.
  split; [| split; [| split]].
  - apply (proj1 (map_orientation 10 11 20 20 30 30 50 51)). lia.
  - apply (proj1 (proj2 (map_orientation 10 10 20 21 30 30 50 51))). lia.
  - apply (proj1 (proj2 (proj2 (map_orientation 10 11 20 20 30 30 50 51)))).
    unfold Qle; simpl; lia.
  - apply (proj2 (proj2 (proj2 (map_orientation 10 11 20 20 30 31 50 50)))).
    unfold Qle; simpl; lia.
Defined.

(** X5.  The conversion cuts off towards zero, so column 0 and row 0 also
    take the points up to one pixel outside the map: every longitude less
    than 19/800 away from the west edge, on either side, lands on column 0,
    and every latitude less than 14/1000 away from the north edge on
    row 0. *)
Theorem geo_to_pixel_edge_band :
  forall lat lon : Q,
    ((MIN_LON - (19 # 800) < lon)%Q -> (lon < MIN_LON + (19 # 800))%Q ->
     fst (geo_to_pixel lat lon) = 0%Z)
    /\ ((MAX_LAT - (14 # 1000) < lat)%Q -> (lat < MAX_LAT + (14 # 1000))%Q ->
        snd (geo_to_pixel lat lon) = 0%Z).
Proof.
  intros lat lon. unfold geo_to_pixel. cbn [fst snd]. unfold MIN_LON at 1 2, MAX_LAT at 1 2.
  split; intros Hlo Hhi; apply int_small.
  - rewrite pixel_x_linear. Lqa.lra.
  - rewrite pixel_x_linear. Lqa.lra.
  - rewrite pixel_y_linear. Lqa.lra.
  - rewrite pixel_y_linear. Lqa.lra.
Qed.

Lemma geo_to_pixel_edge_band_witness :
  fst (geo_to_pixel 39.01 43.98) = 0%Z /\ snd (geo_to_pixel 39.01 43.98) = 0%Z
  /\ fst (geo_to_pixel 38.99 44.02) = 0%Z /\ snd (geo_to_pixel 38.99 44.02) = 0%Z.
Proof.
  split; [| split; [| split]].
  - apply (proj1 (geo_to_pixel_edge_band 39.01 43.98)); unfold Qlt, MIN_LON; simpl; lia.
  - apply (proj2 (geo_to_pixel_edge_band 39.01 43.98)); unfold Qlt, MAX_LAT; simpl; lia.
  - apply (proj1 (geo_to_pixel_edge_band 38.99 44.02)); unfold Qlt, MIN_LON; simpl; lia.
  - apply (proj2 (geo_to_pixel_edge_band 38.99 44.02)); unfold Qlt, MAX_LAT; simpl; lia.
Defined.

(* ===================================================================== *)
(** * Further properties: the nearest province and the labels            *)
(* ===================================================================== *)

#[local] Open Scope R_scope.

Lemma distance_lt_of_squares (lat lon : Q) (p q : Province) :
  (distance2_to lat lon p < distance2_to lat lon q)%Q ->
  distance_to lat lon p < distance_to lat lon q.
Proof.
  intros Hlt. rewrite !distance_to_sqrt.
  apply sqrt_lt_1; [apply distance2_to_nonneg | apply distance2_to_nonneg |].
  apply Qlt_Rlt, Hlt.
Qed.

(** X6.  The loop of the click handler finds nothing exactly when the list
    of provinces is empty, and what it finds is a member of the list. *)
Theorem nearest_province_none_iff_empty :
  forall (l : list Province) (lat lon : Q),
    (nearest_province l lat lon = None <-> l = [])
    /\ (forall prov, nearest_province l lat lon = Some prov -> In prov l).
Proof.
  intros l lat lon. split; [split |].
  - intros Hnone. destruct l as [| x l]; [reflexivity |].
    destruct (nearest_province_spec lat lon (x :: l)) as (prov & i & Hsel & _);
      [discriminate | congruence].
  - intros ->. reflexivity.
  - intros prov Hsel. destruct l as [| x l]; [discriminate |].
    destruct (nearest_province_spec lat lon (x :: l)) as (prov' & i & Hsel' & Hi & _);
      [discriminate |].
    rewrite Hsel in Hsel'. injection Hsel' as <-.
    apply nth_error_In in Hi. exact Hi.
Qed.

Lemma nearest_province_none_iff_empty_witness :
  In ("B", 0, 1)%Q [("A", 0, 3); ("B", 0, 1)]%Q.
Proof.
  apply (proj2 (nearest_province_none_iff_empty [("A", 0, 3); ("B", 0, 1)]%Q 0 0)).
  rewrite nearest_province_evaluates. vm_compute. reflexivity.
Defined.

(** X7.  A province that is strictly nearer to the point than every other
    one of the list is the one selected, wherever it stands in the list:
    the order of the table matters for ties only. *)
Theorem nearest_province_unique_minimum :
  forall (l l' : list Province) (lat lon : Q) (p : Province),
    In p l ->
    (forall q, In q l -> q <> p -> distance_to lat lon p < distance_to lat lon q) ->
    Permutation l l' ->
    nearest_province l lat lon = Some p /\ nearest_province l' lat lon = Some p.
Proof.
  assert (Hone : forall (l : list Province) (lat lon : Q) (p : Province),
             In p l ->
             (forall q, In q l -> q <> p -> distance_to lat lon p < distance_to lat lon q) ->
             nearest_province l lat lon = Some p).
  { intros l lat lon p Hin Hstrict.
    destruct (nearest_province_spec lat lon l) as (prov & i & Hsel & Hi & Hmin & _).
    { intros ->. destruct Hin. }
    rewrite Hsel. f_equal.
    destruct (Classical_Prop.classic (prov = p)) as [Heq | Hne]; [exact Heq |].
    apply nth_error_In in Hi.
    specialize (Hstrict prov Hi Hne). specialize (Hmin p Hin). lra. }
  intros l l' lat lon p Hin Hstrict Hperm. split.
  - apply Hone; assumption.
  - apply Hone.
    + apply (Permutation_in _ Hperm), Hin.
    + intros q Hq. apply Hstrict. apply (Permutation_in _ (Permutation_sym Hperm)), Hq.
Qed.

Lemma nearest_province_unique_minimum_witness :
  nearest_province [("A", 0, 3); ("B", 0, 1)]%Q 0 0 = Some ("B", 0, 1)%Q
  /\ nearest_province [("B", 0, 1); ("A", 0, 3)]%Q 0 0 = Some ("B", 0, 1)%Q.
Proof.
  apply (nearest_province_unique_minimum [("A", 0, 3); ("B", 0, 1)]%Q
                                         [("B", 0, 1); ("A", 0, 3)]%Q 0 0 ("B", 0, 1)%Q).
  - right. left. reflexivity.
  - intros q [<- | [<- | []]] Hne.
    + apply distance_lt_of_squares. unfold Qlt. simpl. lia.
    + contradiction.
  - apply perm_swap.
Defined.


(* ===================================================================== *)
(** * Further properties: the retrieval and the click handler            *)
(* ===================================================================== *)

(** What a path holds after a listing was fetched: the content of the last
    item that maps to the path, or what it held before. *)
Lemma fetch_all_lookup `{Runtime} (listing : list DriveFile) (fs : gmap string string)
      (k : string) :
  fetch_all listing fs !! k
  = match find (fun f => String.eqb (os_path_join download_path (title f)) k) (rev listing) with
    | Some f => Some (content f)
    | None => fs !! k
    end.
Proof.
  induction listing as [| f listing IH] using rev_ind; [reflexivity |].
  rewrite fetch_all_app, rev_app_distr. cbn [rev app find].
  change (fetch_all [f] (fetch_all listing fs))
    with (<[os_path_join download_path (title f) := content f]> (fetch_all listing fs)).
  destruct (String.eqb (os_path_join download_path (title f)) k) eqn:Hk.
  - apply String.eqb_eq in Hk. subst k. apply lookup_insert_eq.
  - apply String.eqb_neq in Hk. rewrite lookup_insert_ne by exact Hk. exact IH.
Qed.

Lemma fetch_all_twice `{Runtime} (listing : list DriveFile) (fs : gmap string string) :
  fetch_all listing (fetch_all listing fs) = fetch_all listing fs.
Proof.
  apply map_eq. intros k. rewrite !fetch_all_lookup.
  destruct (find _ (rev listing)); reflexivity.
Qed.


(** X9.  Retrieving twice from an unchanged storage backend changes
    nothing the second time: the outcome, the local files and the local
    directories after the second retrieval are those after the first. *)
Theorem retrieval_idempotent :
  forall `{GoogleDrive} `{Runtime} (w : World),
    let w1 := snd (download_exports_from_drive w) in
    fst (download_exports_from_drive w1) = fst (download_exports_from_drive w)
    /\ files (snd (download_exports_from_drive w1)) = files w1
    /\ dirs (snd (download_exports_from_drive w1)) = dirs w1.
Proof.
  intros GD RT w w1. subst w1.
  rewrite !download_exports_from_drive_spec.
  destruct (GetList folder_query) as [| file0 rest].
  - repeat split.
  - cbv zeta. cbn [fst snd files dirs].
    split; [reflexivity |]. split; [apply fetch_all_twice |].
    rewrite union_assoc_L, union_idemp_L. reflexivity.
Qed.

Example retrieval_twice_sample :
  files (snd (@download_exports_from_drive sample_drive sample_runtime
                (snd (@download_exports_from_drive sample_drive sample_runtime empty_world))))
  = files (snd (@download_exports_from_drive sample_drive sample_runtime empty_world)).
Proof.
  rewrite !download_exports_from_drive_spec. cbn [GetList sample_drive].
  cbv zeta. cbn [snd files]. apply fetch_all_twice.
Qed.



Lemma started_tasks_of_run_in_click `{EarthEngine} `{GoogleDrive} `{Runtime}
      (w : World) (text : string) (plat plon : Q) :
  started_tasks
    (trace (snd (download_exports_from_drive
                   (add_events w ([Stdout text] ++ run_events plon plat ++ wait_events)))))
  = started_tasks (trace w) ++ started_tasks (run_events plon plat)
  /\ sleeps
       (trace (snd (download_exports_from_drive
                      (add_events w ([Stdout text] ++ run_events plon plat ++ wait_events)))))
     = sleeps (trace w) ++ repeat 1%Z 60.
Proof.
  destruct (download_trace (add_events w ([Stdout text] ++ run_events plon plat ++ wait_events)))
    as (rest & -> & Hrt & Hrs).
  cbn [add_events trace].
  rewrite !started_tasks_app, !sleeps_app.
  destruct (run_events_tasks plon plat) as (_ & Hsl & _).
  destruct wait_events_sleeps as (Hws & Hwt & _).
  rewrite Hwt, Hws, Hsl.
  change (started_tasks (LocalWebserverAuth :: rest)) with (started_tasks rest).
  change (sleeps (LocalWebserverAuth :: rest)) with (sleeps rest).
  rewrite Hrt, Hrs, !app_nil_r.
  split; reflexivity.
Qed.

(** X11.  The export jobs of a click are named after the latitude and the
    longitude of the selected province, in this order, not after the
    clicked point: the six file names are the same for every click that
    selects the same province. *)
Theorem click_exports_named_after_province :
  forall `{EarthEngine} `{GoogleDrive} `{Runtime} (event : ClickEvent) (w : World),
  exists (name : string) (plat plon : Q),
    In (name, plat, plon) PROVINCES
    /\ nearest_province PROVINCES (fst (pixel_to_geo (event_x event) (event_y event)))
                        (snd (pixel_to_geo (event_x event) (event_y event)))
       = Some (name, plat, plon)
    /\ export_names (trace (snd (on_map_click event w)))
       = export_names (trace w)
         ++ ["NDVI_" +:+ format_float plat +:+ "_" +:+ format_float plon;
             "LST_" +:+ format_float plat +:+ "_" +:+ format_float plon;
             "Precip_" +:+ format_float plat +:+ "_" +:+ format_float plon;
             "Slope_" +:+ format_float plat +:+ "_" +:+ format_float plon;
             "Aspect_Score_" +:+ format_float plat +:+ "_" +:+ format_float plon;
             "Fire_Risk_" +:+ format_float plat +:+ "_" +:+ format_float plon].
Proof.
  intros EE GD RT event w.
  destruct (on_map_click_spec event w) as (name & plat & plon & Hsel & Hclick).
  exists name, plat, plon.
  split.
  { destruct (nearest_province_spec (fst (pixel_to_geo (event_x event) (event_y event)))
                (snd (pixel_to_geo (event_x event) (event_y event))) PROVINCES)
      as (prov & i & Hsel' & Hi & _); [discriminate |].
    rewrite Hsel in Hsel'. injection Hsel' as <-. apply nth_error_In in Hi. exact Hi. }
  split; [exact Hsel |].
  rewrite Hclick. unfold export_names.
  rewrite (proj1 (started_tasks_of_run_in_click w _ plat plon)).
  rewrite map_app, (proj1 (run_events_tasks plon plat)). reflexivity.
Qed.

Example click_on_tehran_export_names :
  export_names
    (trace (snd (@on_map_click sample_engine sample_drive sample_runtime
                   {| event_x := 311; event_y := 236 |} empty_world)))
  = ["NDVI_356892/10000_513890/10000"; "LST_356892/10000_513890/10000";
     "Precip_356892/10000_513890/10000"; "Slope_356892/10000_513890/10000";
     "Aspect_Score_356892/10000_513890/10000"; "Fire_Risk_356892/10000_513890/10000"].
Proof.
  destruct (@on_map_click_spec sample_engine sample_drive sample_runtime
              {| event_x := 311; event_y := 236 |} empty_world)
    as (name & plat & plon & Hsel & Hclick).
  cbn [event_x event_y] in Hsel. rewrite click_on_tehran in Hsel. injection Hsel as <- <- <-.
  rewrite Hclick. unfold export_names.
  rewrite (proj1 (started_tasks_of_run_in_click empty_world _ _ _)).
  rewrite map_app, (proj1 (run_events_tasks _ _)). vm_compute. reflexivity.
Qed.



(* ===================================================================== *)
(** * Further properties: normalisation and risk index together          *)
(* ===================================================================== *)

(** The risk index on raw one-band signals, at one pixel. *)
Lemma risk_of_raw_signals (nl nn ns na np : string) (L N S A P : Raster) (p : Pixel) :
  sample (fireRisk (lst_norm [(nl, L)]) (ndvi_norm [(nn, N)]) (slope_norm [(ns, S)])
                   (aspect_south [(na, A)]) (precip_norm [(np, P)])) p
  = [("Fire_Risk",
      0.30 * Rmin (Rmax ((L p - 20) / (45 - 20)) 0) 1
      - 0.30 * Rmin (Rmax ((N p - 0) / (1 - 0)) 0) 1
      + 0.15 * Rmin (Rmax ((S p - 0) / (60 - 0)) 0) 1
      + 0.15 * cos ((A p - 180) * 3.1416 / 180)
      - 0.10 * Rmin (Rmax ((P p - 0) / (150 - 0)) 0) 1)].
Proof.
  exact (fireRisk_one_band nl nn ns "Aspect_Score" np
           (fun q => Rmin (Rmax ((L q - 20) / (45 - 20)) 0) 1)
           (fun q => Rmin (Rmax ((N q - 0) / (1 - 0)) 0) 1)
           (fun q => Rmin (Rmax ((S q - 0) / (60 - 0)) 0) 1)
           (fun q => cos ((A q - 180) * 3.1416 / 180))
           (fun q => Rmin (Rmax ((P q - 0) / (150 - 0)) 0) 1) p).
Qed.

Lemma clamp_monotone (u v : R) : u <= v -> Rmin (Rmax u 0) 1 <= Rmin (Rmax v 0) 1.
Proof.
  intros Huv. unfold Rmin, Rmax.
  destruct (Rle_dec u 0); destruct (Rle_dec v 0);
    repeat match goal with |- context [Rle_dec ?a ?b] => destruct (Rle_dec a b) end; lra.
Qed.

Lemma unit_scale_monotone (u v low high : R) :
  low < high -> u <= v -> (u - low) / (high - low) <= (v - low) / (high - low).
Proof.
  intros Hlh Huv. unfold Rdiv.
  apply Rmult_le_compat_r; [| lra].
  apply Rlt_le, Rinv_0_lt_compat. lra.
Qed.

(** X13.  Whatever the raw values of the five signals, the risk index of
    the pipeline lies between -0.55 and 0.60; it is 0.60 where the
    temperature is 45 or more, the vegetation index 0 or less, the slope 60
    or more, the aspect 180 and the precipitation 0 or less. *)
Theorem fire_risk_range :
  forall (nl nn ns na np : string) (L N S A P : Raster) (p : Pixel),
    (exists r : R,
        sample (fireRisk (lst_norm [(nl, L)]) (ndvi_norm [(nn, N)]) (slope_norm [(ns, S)])
                         (aspect_south [(na, A)]) (precip_norm [(np, P)])) p
        = [("Fire_Risk", r)]
        /\ -0.55 <= r <= 0.60)
    /\ (45 <= L p -> N p <= 0 -> 60 <= S p -> A p = 180 -> P p <= 0 ->
        sample (fireRisk (lst_norm [(nl, L)]) (ndvi_norm [(nn, N)]) (slope_norm [(ns, S)])
                         (aspect_south [(na, A)]) (precip_norm [(np, P)])) p
        = [("Fire_Risk", 0.60)]).
Proof.
  intros nl nn ns na np L N S A P p. rewrite risk_of_raw_signals.
  split.
  - eexists. split; [reflexivity |].
    pose proof (clamp_unit_interval ((L p - 20) / (45 - 20))).
    pose proof (clamp_unit_interval ((N p - 0) / (1 - 0))).
    pose proof (clamp_unit_interval ((S p - 0) / (60 - 0))).
    pose proof (clamp_unit_interval ((P p - 0) / (150 - 0))).
    pose proof (COS_bound ((A p - 180) * 3.1416 / 180)).
    lra.
  - intros HL HN HS HA HP.
    rewrite (clamp_above ((L p - 20) / (45 - 20))).
    2: { pose proof (unit_scale_monotone 45 (L p) 20 45 ltac:(lra) HL) as Hm.
         replace ((45 - 20) / (45 - 20)) with 1 in Hm by lra. exact Hm. }
    rewrite (clamp_below ((N p - 0) / (1 - 0))).
    2: { pose proof (unit_scale_monotone (N p) 0 0 1 ltac:(lra) HN) as Hm.
         replace ((0 - 0) / (1 - 0)) with 0 in Hm by lra. exact Hm. }
    rewrite (clamp_above ((S p - 0) / (60 - 0))).
    2: { pose proof (unit_scale_monotone 60 (S p) 0 60 ltac:(lra) HS) as Hm.
         replace ((60 - 0) / (60 - 0)) with 1 in Hm by lra. exact Hm. }
    rewrite (clamp_below ((P p - 0) / (150 - 0))).
    2: { pose proof (unit_scale_monotone (P p) 0 0 150 ltac:(lra) HP) as Hm.
         replace ((0 - 0) / (150 - 0)) with 0 in Hm by lra. exact Hm. }
    rewrite HA. replace ((180 - 180) * 3.1416 / 180) with 0 by lra. rewrite cos_0.
    do 2 f_equal. lra.
Qed.

Lemma fire_risk_range_witness :
  sample (fireRisk (lst_norm [("LST", fun _ => 50)]) (ndvi_norm [("NDVI", fun _ => -1)])
                   (slope_norm [("Slope", fun _ => 75)])
                   (aspect_south [("Aspect", fun _ => 180)])
                   (precip_norm [("Precip", fun _ => 0)])) (0, 0)%Z
  = [("Fire_Risk", 0.60)].
Proof.
  apply (proj2 (fire_risk_range "LST" "NDVI" "Slope" "Aspect" "Precip"
                  (fun _ => 50) (fun _ => -1) (fun _ => 75) (fun _ => 180) (fun _ => 0)
                  (0, 0)%Z)); lra.
Defined.

(** X14.  The risk index never falls when the temperature or the slope
    rises, and never rises when the vegetation index or the precipitation
    rises, the aspect being the same. *)
Theorem fire_risk_monotone :
  forall (nl nn ns na np : string) (L L' N N' S S' A P P' : Raster) (p : Pixel),
    L p <= L' p -> N' p <= N p -> S p <= S' p -> P' p <= P p ->
    exists r r' : R,
      sample (fireRisk (lst_norm [(nl, L)]) (ndvi_norm [(nn, N)]) (slope_norm [(ns, S)])
                       (aspect_south [(na, A)]) (precip_norm [(np, P)])) p
      = [("Fire_Risk", r)]
      /\ sample (fireRisk (lst_norm [(nl, L')]) (ndvi_norm [(nn, N')]) (slope_norm [(ns, S')])
                          (aspect_south [(na, A)]) (precip_norm [(np, P')])) p
         = [("Fire_Risk", r')]
      /\ r <= r'.
Proof.
  intros nl nn ns na np L L' N N' S S' A P P' p HL HN HS HP.
  rewrite !risk_of_raw_signals.
  eexists. eexists. split; [reflexivity |]. split; [reflexivity |].
  pose proof (clamp_monotone _ _ (unit_scale_monotone (L p) (L' p) 20 45 ltac:(lra) HL)).
  pose proof (clamp_monotone _ _ (unit_scale_monotone (N' p) (N p) 0 1 ltac:(lra) HN)).
  pose proof (clamp_monotone _ _ (unit_scale_monotone (S p) (S' p) 0 60 ltac:(lra) HS)).
  pose proof (clamp_monotone _ _ (unit_scale_monotone (P' p) (P p) 0 150 ltac:(lra) HP)).
  lra.
Qed.

Lemma fire_risk_monotone_witness :
  exists r r' : R,
    sample (fireRisk (lst_norm [("LST", fun _ => 30)]) (ndvi_norm [("NDVI", fun _ => 1 / 2)])
                     (slope_norm [("Slope", fun _ => 10)])
                     (aspect_south [("Aspect", fun _ => 90)])
                     (precip_norm [("Precip", fun _ => 100)])) (0, 0)%Z
    = [("Fire_Risk", r)]
    /\ sample (fireRisk (lst_norm [("LST", fun _ => 35)]) (ndvi_norm [("NDVI", fun _ => 1 / 4)])
                        (slope_norm [("Slope", fun _ => 20)])
                        (aspect_south [("Aspect", fun _ => 90)])
                        (precip_norm [("Precip", fun _ => 50)])) (0, 0)%Z
       = [("Fire_Risk", r')]
    /\ r <= r'.
Proof.
  apply (fire_risk_monotone "LST" "NDVI" "Slope" "Aspect" "Precip"
           (fun _ => 30) (fun _ => 35) (fun _ => 1 / 2) (fun _ => 1 / 4)
           (fun _ => 10) (fun _ => 20) (fun _ => 90) (fun _ => 100) (fun _ => 50)
           (0, 0)%Z); lra.
Defined.

(** X15.  A raw temperature count [v] of the source becomes
    [v * 0.02 - 273.15] degrees and is then normalised: counts up to
    14657.5 (20 degrees) give 0, counts from 15907.5 (45 degrees) give 1,
    and the counts between rise linearly by 1/1250 per count. *)
Theorem lst_count_thresholds :
  forall (n : string) (V : Raster) (p : Pixel),
    sample (lst [(n, V)]) p = [("LST", V p * 0.02 - 273.15)]
    /\ (V p <= 14657.5 -> sample (lst_norm (lst [(n, V)])) p = [("LST", 0)])
    /\ (15907.5 <= V p -> sample (lst_norm (lst [(n, V)])) p = [("LST", 1)])
    /\ (14657.5 <= V p <= 15907.5 ->
        sample (lst_norm (lst [(n, V)])) p = [("LST", (V p - 14657.5) / 1250)]).
Proof.
  intros n V p.
  assert (Hnorm : sample (lst_norm (lst [(n, V)])) p
                  = [("LST", Rmin (Rmax ((V p * 0.02 - 273.15 - 20) / (45 - 20)) 0) 1)])
    by reflexivity.
  split; [reflexivity |]. rewrite Hnorm.
  split; [| split]; intros HV; do 2 f_equal.
  - apply clamp_below. apply Rmult_le_reg_r with (r := 25); [lra |]. lra.
  - apply clamp_above. apply Rmult_le_reg_r with (r := 25); [lra |]. lra.
  - rewrite clamp_inside; [lra |]. lra.
Qed.

Lemma lst_count_thresholds_witness :
  sample (lst_norm (lst [("LST_Day_1km", fun _ => 14000)])) (0, 0)%Z = [("LST", 0)]
  /\ sample (lst_norm (lst [("LST_Day_1km", fun _ => 16000)])) (0, 0)%Z = [("LST", 1)]
  /\ sample (lst_norm (lst [("LST_Day_1km", fun _ => 15500)])) (0, 0)%Z
     = [("LST", (15500 - 14657.5) / 1250)].
Proof.
  split; [| split].
  - apply (proj1 (proj2 (lst_count_thresholds "LST_Day_1km" (fun _ => 14000) (0, 0)%Z))). lra.
  - apply (proj1 (proj2 (proj2 (lst_count_thresholds "LST_Day_1km" (fun _ => 16000) (0, 0)%Z)))).
    lra.
  - apply (proj2 (proj2 (proj2 (lst_count_thresholds "LST_Day_1km" (fun _ => 15500) (0, 0)%Z)))).
    lra.
Defined.

(** X16.  Where none of the three remote sources has imagery, the risk
    index is made of the defaults and the terrain alone: the default
    temperature 25 counts as 1/5, the default vegetation index 0 as 0, the
    default precipitation 10 as 1/15, so the index is 4/75 plus 0.15 times
    the normalised slope plus 0.15 times the aspect score. *)
Theorem fire_risk_without_imagery :
  forall `{EarthEngine} (a : Geometry) (ns na : string) (S A : Raster) (p : Pixel),
    s2 a = [] -> lstCol a = [] -> chirpsCol a = [] ->
    slope a = [(ns, S)] -> aspect a = [(na, A)] ->
    sample (lst_norm (lst (mean (lstCol a)))) p = [("LST", 1 / 5)]
    /\ sample (ndvi_norm (ndvi (median (s2 a)))) p = [("NDVI", 0)]
    /\ sample (precip_norm (precip (sum (chirpsCol a)))) p = [("Precip", 1 / 15)]
    /\ sample (fireRisk (lst_norm (lst (mean (lstCol a)))) (ndvi_norm (ndvi (median (s2 a))))
                        (slope_norm (slope a)) (aspect_south (aspect a))
                        (precip_norm (precip (sum (chirpsCol a))))) p
       = [("Fire_Risk",
           4 / 75 + 0.15 * Rmin (Rmax ((S p - 0) / (60 - 0)) 0) 1
           + 0.15 * cos ((A p - 180) * 3.1416 / 180))].
Proof.
  intros EE a ns na S A p -> -> -> -> ->.
  change (lst (mean [])) with [("LST", fun _ : Pixel => 25)].
  change (ndvi (median [])) with [("NDVI", fun _ : Pixel => 0)].
  change (precip (sum [])) with [("Precip", fun _ : Pixel => 10)].
  assert (Hl : Rmin (Rmax ((25 - 20) / (45 - 20)) 0) 1 = 1 / 5)
    by (rewrite clamp_inside; lra).
  assert (Hn : Rmin (Rmax ((0 - 0) / (1 - 0)) 0) 1 = 0)
    by (rewrite clamp_inside; lra).
  assert (Hp : Rmin (Rmax ((10 - 0) / (150 - 0)) 0) 1 = 1 / 15)
    by (rewrite clamp_inside; lra).
  rewrite risk_of_raw_signals. unfold lst_norm, ndvi_norm, precip_norm.
  rewrite !normalised_one_band, Hl, Hn, Hp.
  repeat split. do 2 f_equal. lra.
Qed.

Lemma fire_risk_without_imagery_witness :
  sample (fireRisk (lst_norm (lst (mean (@lstCol empty_engine (area 51.389 35.6892)))))
                   (ndvi_norm (ndvi (median (@s2 empty_engine (area 51.389 35.6892)))))
                   (slope_norm (@slope empty_engine (area 51.389 35.6892)))
                   (aspect_south (@aspect empty_engine (area 51.389 35.6892)))
                   (precip_norm (precip (sum (@chirpsCol empty_engine (area 51.389 35.6892))))))
         (0, 0)%Z
  = [("Fire_Risk",
      4 / 75 + 0.15 * Rmin (Rmax ((0 - 0) / (60 - 0)) 0) 1
      + 0.15 * cos ((0 - 180) * 3.1416 / 180))].
Proof.
  apply (@fire_risk_without_imagery empty_engine (area 51.389 35.6892) "Slope" "Aspect"
           (fun _ => 0) (fun _ => 0) (0, 0)%Z); reflexivity.
Defined.

(** The cosine just past the quarter turn: [1.5708] exceeds [PI/2] by less
    than [0.000004], so its cosine is below 0 by less than that. *)
Lemma cos_15708 : -0.000004 < cos 1.5708 < 0.
Proof.
  pose proof PI_upper as Hu. pose proof PI_lower as Hl.
  set (h := 1.5708 - PI / 2).
  assert (Hh : 0 < h < 0.000004) by (unfold h; lra).
  replace 1.5708 with (PI / 2 + h) by (unfold h; lra).
  replace (cos (PI / 2 + h)) with (Ropp (sin h)) by (rewrite (sin_cos h); lra).
  assert (Hs0 : 0 < sin h) by (apply sin_gt_0; lra).
  assert (Hs1 : sin h < h) by (apply sin_lt_x; lra).
  lra.
Qed.

(** X17.  The aspect score depends on the angle from south only: aspects
    [180 + d] and [180 - d] score the same.  East (90) and west (270) both
    score [cos 1.5708], which is below 0 by less than 0.000004. *)
Theorem aspect_score_symmetric :
  forall (n n' : string) (A A' : Raster) (p : Pixel) (d : R),
    A p = 180 + d -> A' p = 180 - d ->
    sample (aspect_south [(n, A)]) p = sample (aspect_south [(n', A')]) p
    /\ (d = 90 ->
        sample (aspect_south [(n, A)]) p = [("Aspect_Score", cos 1.5708)]
        /\ -0.000004 < cos 1.5708 < 0).
Proof.
  intros n n' A A' p d HA HA'. rewrite !aspect_south_one_band, HA, HA'.
  split.
  - do 2 f_equal.
    replace ((180 - d - 180) * 3.1416 / 180) with (Ropp ((180 + d - 180) * 3.1416 / 180))
      by lra.
    symmetry. apply cos_neg.
  - intros ->. split; [| apply cos_15708].
    do 3 f_equal. lra.
Qed.

Lemma aspect_score_symmetric_witness :
  sample (aspect_south [("Aspect", fun _ => 270)]) (0, 0)%Z
  = sample (aspect_south [("Aspect", fun _ => 90)]) (0, 0)%Z
  /\ sample (aspect_south [("Aspect", fun _ => 270)]) (0, 0)%Z
     = [("Aspect_Score", cos 1.5708)].
Proof.
  destruct (aspect_score_symmetric "Aspect" "Aspect" (fun _ => 270) (fun _ => 90)
              (0, 0)%Z 90) as (Hsym & Hq); [lra | lra |].
  split; [exact Hsym | apply Hq; reflexivity].
Defined.

(* ===================================================================== *)
(** * Further properties: the map conversions in binary64                *)
(* ===================================================================== *)

#[local] Close Scope R_scope.

Lemma in_Z_interval (lo : Z) (n : nat) (x : Z) :
  (lo <= x < lo + Z.of_nat n)%Z -> In x (Z_interval lo n).
Proof.
  intros Hx. unfold Z_interval. apply in_map_iff.
  exists (Z.to_nat (x - lo)). split; [lia |].
  apply in_seq. lia.
Qed.

(** The column that the way there and back gives for a column, and the
    same for a row. *)
Lemma column_round_trip_b64 (x : Z) (lat : PrimFloat.float) :
  (0 <= x <= 800)%Z ->
  exists x' : Z,
    int_of_float
      (PrimFloat.mul
         (PrimFloat.div
            (PrimFloat.sub
               (PrimFloat.add
                  (PrimFloat.mul (PrimFloat.div (float_of_int x) (float_literal WIDTH))
                                 (float_literal (MAX_LON - MIN_LON)))
                  (float_literal MIN_LON))
               (float_literal MIN_LON))
            (float_literal (MAX_LON - MIN_LON)))
         (float_literal WIDTH)) = Returned x'
    /\ (x' = x \/ x' = x - 1)%Z.
Proof.
  intros Hx.
  set (col := fun x : Z =>
         int_of_float
           (PrimFloat.mul
              (PrimFloat.div
                 (PrimFloat.sub
                    (PrimFloat.add
                       (PrimFloat.mul (PrimFloat.div (float_of_int x) (float_literal WIDTH))
                                      (float_literal (MAX_LON - MIN_LON)))
                       (float_literal MIN_LON))
                    (float_literal MIN_LON))
                 (float_literal (MAX_LON - MIN_LON)))
              (float_literal WIDTH))).
  change (exists x' : Z, col x = Returned x' /\ (x' = x \/ x' = x - 1)%Z).
  assert (Hall : forallb (fun x : Z => match col x with
                                       | Returned x' => (x' =? x)%Z || (x' =? x - 1)%Z
                                       | Raised _ => false
                                       end) (Z_interval 0 801) = true)
    by (vm_compute; reflexivity).
  rewrite forallb_forall in Hall.
  specialize (Hall x (in_Z_interval 0 801 x ltac:(lia))).
  destruct (col x) as [x' |]; [| discriminate].
  exists x'. split; [reflexivity |].
  apply orb_true_iff in Hall as [Heq | Heq]; apply Z.eqb_eq in Heq; [left | right]; exact Heq.
Qed.

Lemma row_round_trip_b64 (y : Z) :
  (0 <= y <= 1000)%Z ->
  exists y' : Z,
    int_of_float
      (PrimFloat.mul
         (PrimFloat.div
            (PrimFloat.sub
               (float_literal MAX_LAT)
               (PrimFloat.sub
                  (float_literal MAX_LAT)
                  (PrimFloat.mul (PrimFloat.div (float_of_int y) (float_literal HEIGHT))
                                 (float_literal (MAX_LAT - MIN_LAT)))))
            (float_literal (MAX_LAT - MIN_LAT)))
         (float_literal HEIGHT)) = Returned y'
    /\ (y' = y \/ y' = y - 1)%Z.
Proof.
  intros Hy.
  set (row := fun y : Z =>
         int_of_float
           (PrimFloat.mul
              (PrimFloat.div
                 (PrimFloat.sub
                    (float_literal MAX_LAT)
                    (PrimFloat.sub
                       (float_literal MAX_LAT)
                       (PrimFloat.mul (PrimFloat.div (float_of_int y) (float_literal HEIGHT))
                                      (float_literal (MAX_LAT - MIN_LAT)))))
                 (float_literal (MAX_LAT - MIN_LAT)))
              (float_literal HEIGHT))).
  change (exists y' : Z, row y = Returned y' /\ (y' = y \/ y' = y - 1)%Z).
  assert (Hall : forallb (fun y : Z => match row y with
                                       | Returned y' => (y' =? y)%Z || (y' =? y - 1)%Z
                                       | Raised _ => false
                                       end) (Z_interval 0 1001) = true)
    by (vm_compute; reflexivity).
  rewrite forallb_forall in Hall.
  specialize (Hall y (in_Z_interval 0 1001 y ltac:(lia))).
  destruct (row y) as [y' |]; [| discriminate].
  exists y'. split; [reflexivity |].
  apply orb_true_iff in Hall as [Heq | Heq]; apply Z.eqb_eq in Heq; [left | right]; exact Heq.
Qed.

(** X3.  In binary64, as the program computes, going from a pixel of the
    canvas to its point and back gives the pixel itself or its neighbour
    one column to the left, one row up, or both: the rounding of the
    divisions can leave the value just below the integer, and [int] then
    cuts it down.  The pixel (311, 236) comes back as (310, 236). *)
Theorem canvas_round_trip_binary64 :
  forall x y : Z,
    (0 <= x <= 800)%Z -> (0 <= y <= 1000)%Z ->
    exists x' y' : Z,
      geo_to_pixel_b64 (fst (pixel_to_geo_b64 x y)) (snd (pixel_to_geo_b64 x y))
      = Returned (x', y')
      /\ (x' = x \/ x' = x - 1)%Z
      /\ (y' = y \/ y' = y - 1)%Z.
Proof.
  intros x y Hx Hy.
  destruct (column_round_trip_b64 x (fst (pixel_to_geo_b64 x y)) Hx) as (x' & Hcol & Hx').
  destruct (row_round_trip_b64 y Hy) as (y' & Hrow & Hy').
  exists x', y'. split; [| split; assumption].
  unfold geo_to_pixel_b64, pixel_to_geo_b64. cbn [fst snd].
  rewrite Hcol, Hrow. reflexivity.
Qed.

Lemma canvas_round_trip_binary64_witness :
  exists x' y' : Z,
    geo_to_pixel_b64 (fst (pixel_to_geo_b64 311 236)) (snd (pixel_to_geo_b64 311 236))
    = Returned (x', y')
    /\ (x' = 311 \/ x' = 311 - 1)%Z
    /\ (y' = 236 \/ y' = 236 - 1)%Z.
Proof. apply (canvas_round_trip_binary64 311 236); lia. Defined.

Example round_trip_311_236_binary64 :
  geo_to_pixel_b64 (fst (pixel_to_geo_b64 311 236)) (snd (pixel_to_geo_b64 311 236))
  = Returned (310, 236)%Z.
Proof. vm_compute. reflexivity. Qed.

(** On floats the label of West Azerbaijan is on row 104, one row above
    the row 105 of exact arithmetic. *)
Example west_azerbaijan_binary64 :
  geo_to_pixel_b64 (float_literal 37.5300) (float_literal 45.0000) = Returned (42, 104)%Z
  /\ geo_to_pixel 37.5300 45.0000 = (42, 105)%Z.
Proof. split; vm_compute; reflexivity. Qed.

(** X8.  [create_gui] ends normally after drawing one label per province,
    in the order of the table and with the province's name, at the pixel
    computed on floats; every label lies inside the canvas of 800 by 1000;
    and a click exactly on the position of a label selects the province of
    that label, whether the clicked point is taken in exact arithmetic or
    with the values that the floats have. *)
Theorem labels_on_canvas_and_clickable :
  snd create_gui = Returned tt
  /\ map (fun l : Z * Z * string => snd l) (labels (fst create_gui))
     = map (fun prov : Province => fst (fst prov)) PROVINCES
  /\ Forall (fun l : Z * Z * string =>
               (0 <= fst (fst l) < 800)%Z /\ (0 <= snd (fst l) < 1000)%Z)
            (labels (fst create_gui))
  /\ map (fun l : Z * Z * string =>
            nearest_province PROVINCES
              (fst (pixel_to_geo (fst (fst l)) (snd (fst l))))
              (snd (pixel_to_geo (fst (fst l)) (snd (fst l)))))
         (labels (fst create_gui))
     = map Some PROVINCES
  /\ map (fun l : Z * Z * string =>
            nearest_province PROVINCES
              (Q_of_float (fst (pixel_to_geo_b64 (fst (fst l)) (snd (fst l)))))
              (Q_of_float (snd (pixel_to_geo_b64 (fst (fst l)) (snd (fst l))))))
         (labels (fst create_gui))
     = map Some PROVINCES.
Proof.
  split; [vm_compute; reflexivity |].
  split; [vm_compute; reflexivity |].
  split; [| split].
  - apply List.Forall_forall. intros l Hl.
    assert (Hb : forallb (fun l : Z * Z * string =>
                            (0 <=? fst (fst l))%Z && (fst (fst l) <? 800)%Z
                            && (0 <=? snd (fst l))%Z && (snd (fst l) <? 1000)%Z)
                         (labels (fst create_gui)) = true) by (vm_compute; reflexivity).
    rewrite forallb_forall in Hb. specialize (Hb l Hl).
    rewrite !andb_true_iff, !Z.leb_le, !Z.ltb_lt in Hb. lia.
  - rewrite (map_ext _ (fun l : Z * Z * string =>
                          nearest_province2 PROVINCES
                            (fst (pixel_to_geo (fst (fst l)) (snd (fst l))))
                            (snd (pixel_to_geo (fst (fst l)) (snd (fst l))))))
      by (intros l; apply nearest_province_evaluates).
    vm_compute. reflexivity.
  - rewrite (map_ext _ (fun l : Z * Z * string =>
                          nearest_province2 PROVINCES
                            (Q_of_float (fst (pixel_to_geo_b64 (fst (fst l)) (snd (fst l)))))
                            (Q_of_float (snd (pixel_to_geo_b64 (fst (fst l)) (snd (fst l)))))))
      by (intros l; apply nearest_province_evaluates).
    vm_compute. reflexivity.
Qed.

(** The labels as the program draws them. *)
Example labels_drawn :
  map fst (labels (fst create_gui))
  = [(311, 236); (322, 453); (359, 672); (656, 192); (382, 174); (106, 301); (196, 504);
     (96, 66); (42, 104); (181, 53); (189, 165); (252, 194); (235, 122); (439, 154);
     (395, 244); (292, 225); (289, 311); (240, 349); (189, 300); (101, 383); (183, 387);
     (288, 477); (320, 596); (287, 719); (520, 842); (709, 679); (550, 622); (436, 507);
     (640, 437); (561, 109)]%Z.
Proof. vm_compute. reflexivity. Qed.
